(** * divik: shallow embedding of the utilities of [divik/core.py] and of the
    feature selectors of [divik/_feature_selection].

    Python values are modelled as follows.
    - A Python computation that may raise and that reads or writes a piece of
      process-global state is a function [S -> outcome A * S].
    - Keyword arguments are a [gmap string pyval].
    - A NumPy matrix is a record with its column count and its rows.
    - Floats are idealised: exact rationals where the code only multiplies
      and compares, real numbers (with the IEEE special values [-inf], [+inf]
      and [nan] added) where it takes logarithms and exponentials. *)

From Stdlib Require Import ZArith QArith Qround Reals Lra Lia List Bool String.
From stdpp Require Import gmap strings list.

Local Open Scope Z_scope.

(** ** Python outcomes and the state-and-exception monad *)

Inductive exn : Type :=
| ValueError (msg : string)
| TypeError (msg : string)
| RuntimeError (msg : string).

Inductive outcome (A : Type) : Type :=
| Ret (a : A)
| Raise (e : exn).
Arguments Ret {A} a.
Arguments Raise {A} e.

Definition Py (S A : Type) : Type := S -> outcome A * S.

Definition ret {S A} (a : A) : Py S A := fun s => (Ret a, s).
Definition raise {S A} (e : exn) : Py S A := fun s => (Raise e, s).
Definition bind {S A B} (m : Py S A) (k : A -> Py S B) : Py S B :=
  fun s => match m s with
           | (Ret a, s') => k a s'
           | (Raise e, s') => (Raise e, s')
           end.

Notation "'do' x <- m ; k" := (bind m (fun x => k))
  (at level 10, x name, m at level 100, k at level 200).
Notation "'do_' m ; k" := (bind m (fun _ => k))
  (at level 10, m at level 100, k at level 200).

(** Python objects that travel as positional and keyword arguments. *)
Inductive pyval : Type :=
| PyInt (z : Z)
| PyStr (s : string)
| PyBool (b : bool).

(** A Python callable, invoked with positional and keyword arguments. *)
Definition pyfun (S R : Type) : Type := list pyval -> gmap string pyval -> Py S R.

(** ** [divik/core.py]: parallel helpers *)

Module Parallel.

(** [os.cpu_count()] is [None] or a number; [x or y] takes [y] when [x] is
    [None] or [0]. *)
Definition get_n_jobs (cpu_count : option Z) (n_jobs : option Z) : Z :=
  let n_cpu := match cpu_count with
               | Some c => if c =? 0 then 1 else c
               | None => 1
               end in
  let n_jobs := match n_jobs with None => 1 | Some n => n end in
  let n_jobs := if n_jobs <=? 0 then Z.min (n_jobs + 1 + n_cpu) n_cpu else n_jobs in
  if n_jobs =? 0 then n_cpu else n_jobs.

Section DummyPool.
Context {S R : Type}.

(** [[e(v) for v in iterable]]: the interpreter appends to a fresh list, one
    element after the other, and stops at the first exception. *)
Fixpoint list_comprehension {A} (e : A -> Py S R) (iterable : list A)
         (acc : list R) : Py S (list R) :=
  match iterable with
  | [] => ret acc
  | v :: rest => do x <- e v; list_comprehension e rest (acc ++ [x])
  end.

Definition DummyPool_apply (func : pyfun S R) (args : list pyval)
           (kwds : gmap string pyval) : Py S R :=
  func args kwds.

Definition DummyPool_map (func : pyfun S R) (iterable : list pyval)
           (chunksize : option Z) : Py S (list R) :=
  list_comprehension (fun v => func [v] ∅) iterable [].

Definition DummyPool_starmap (func : pyfun S R) (iterable : list (list pyval))
           (chunksize : option Z) : Py S (list R) :=
  list_comprehension (fun v => func v ∅) iterable [].
End DummyPool.

(** The object yielded by [maybe_pool]. *)
Inductive pool : Type :=
| DummyPool (n_jobs : Z)
| Pool (n_jobs : Z).

(** [multiprocessing.Pool(n)] refuses a process count below one. *)
Definition Pool_init (n_jobs : Z) : outcome pool :=
  if n_jobs <? 1 then Raise (ValueError "Number of processes must be at least 1")
  else Ret (Pool n_jobs).

Definition maybe_pool (cpu_count : option Z) (processes : option Z) : outcome pool :=
  let n_jobs := get_n_jobs cpu_count processes in
  if (n_jobs =? 1) || (n_jobs =? 0) then Ret (DummyPool n_jobs)
  else Pool_init n_jobs.

(** What the spec calls sequential application of [f]: the first element is
    evaluated first, its effect on the state is seen by the second, and so
    on; the first exception ends the evaluation. *)
Fixpoint sequential {S A R} (f : A -> Py S R) (xs : list A) : Py S (list R) :=
  match xs with
  | [] => ret []
  | x :: rest => do y <- f x; do ys <- sequential f rest; ret (y :: ys)
  end.

(** Reference model of [multiprocessing.Pool.map] on a side-effect-free
    function, after the library's documentation: the iterable is cut into
    chunks of [chunksize] elements, every chunk is mapped by some worker, and
    the chunk results are joined in the order of the input. *)
Fixpoint chunks {A} (fuel : nat) (chunksize : nat) (xs : list A) : list (list A) :=
  match fuel with
  | O => []
  | Datatypes.S fuel' =>
      match xs with
      | [] => []
      | _ => take chunksize xs :: chunks fuel' chunksize (drop chunksize xs)
      end
  end.

Definition Pool_map_reference {A R} (chunksize : nat) (f : A -> R) (xs : list A) : list R :=
  concat (List.map (List.map f) (chunks (length xs) chunksize xs)).

End Parallel.

(** ** [divik/core.py]: randomization maintenance *)

Module Random.

Section Seed.
(** NumPy's global generator: the type of its state and the state that
    [np.random.seed] installs for a valid seed are NumPy's, not this
    repository's, and are left abstract. *)
Context {RngState : Type}.
Variable init_by_seed : Z -> RngState.

Definition np_random_get_state : Py RngState RngState :=
  fun s => (Ret s, s).

Definition np_random_set_state (state : RngState) : Py RngState unit :=
  fun _ => (Ret tt, state).

(** [np.random.seed] accepts an integer in [0, 2**32 - 1] and raises
    otherwise, leaving the generator as it was. *)
Definition valid_seed (z : Z) : bool := (0 <=? z) && (z <? 2 ^ 32).

(** The integer that an object stands for, if any: a Python [bool] is an
    [int]. *)
Definition operator_index (v : pyval) : option Z :=
  match v with
  | PyInt z => Some z
  | PyBool b => Some (Z.b2z b)
  | PyStr _ => None
  end.

Definition np_random_seed (seed_ : pyval) : Py RngState unit :=
  match operator_index seed_ with
  | Some z =>
      if valid_seed z
      then fun _ => (Ret tt, init_by_seed z)
      else raise (ValueError "Seed must be between 0 and 2**32 - 1")
  | None => raise (TypeError "Cannot cast scalar to unsigned integer")
  end.

(** A [with] statement over a [@contextmanager] generator that has a single
    [yield] and no [try] around it.  [before_yield] runs on entry.  When
    the block ends normally the generator is resumed and [after_yield]
    runs.  When the block raises, the exception is thrown into the
    generator at its [yield]: nothing catches it there, so the code after
    the [yield] is skipped and the exception leaves the [with]. *)
Definition with_generator {St E A} (before_yield : Py St E)
           (after_yield : E -> Py St unit) (block : Py St A) : Py St A :=
  do e <- before_yield;
  fun s => match block s with
           | (Ret a, s') => (do_ after_yield e; ret a) s'
           | (Raise x, s') => (Raise x, s')
           end.

(** [with seed(seed_): block] *)
Definition seed {A} (seed_ : pyval) (block : Py RngState A) : Py RngState A :=
  with_generator
    (do state <- np_random_get_state;
     do_ np_random_seed seed_;
     ret state)
    (fun state => np_random_set_state state)
    block.

(** [dict.get(d, key, default)] and [dict.pop(d, key, default)]: the value
    found and the dictionary afterwards. *)
Definition dict_get (d : gmap string pyval) (key : string) (default_ : pyval)
  : pyval * gmap string pyval :=
  (default default_ (d !! key), d).

Definition dict_pop (d : gmap string pyval) (key : string) (default_ : pyval)
  : pyval * gmap string pyval :=
  (default default_ (d !! key), delete key d).

(** [seeded(wrapped_requires_seed)(func)] *)
Definition seeded {R} (wrapped_requires_seed : bool) (func : pyfun RngState R)
  : pyfun RngState R :=
  let get := if wrapped_requires_seed then dict_get else dict_pop in
  fun args kwargs =>
    let '(_seed, kwargs) := get kwargs "seed"%string (PyInt 0) in
    seed _seed (func args kwargs).
End Seed.

(** A small generator to run the definitions on: the state is a number,
    seeding installs the seed itself, and a draw steps a linear congruence. *)
Definition sample_init_by_seed (z : Z) : Z := z.
Definition sample_draw : Py Z Z :=
  fun s => let s' := (1103515245 * s + 12345) mod 2 ^ 31 in (Ret s', s').
Definition sample_draw_plus : pyfun Z Z :=
  fun args _ =>
    do x <- sample_draw;
    ret (x + match args with PyInt z :: _ => z | _ => 0 end).

End Random.

(** ** NumPy arrays *)

Module Numpy.

(** A two-dimensional array of shape [(length rows, n_cols)]. *)
Record matrix (T : Type) : Type := Matrix { n_cols : nat; rows : list (list T) }.
Arguments Matrix {T} n_cols rows.
Arguments n_cols {T} m.
Arguments rows {T} m.

Definition well_shaped {T} (X : matrix T) : Prop :=
  Forall (fun r => length r = n_cols X) (rows X).

Definition count_true (mask : list bool) : nat :=
  length (List.filter (fun b => b) mask).
Arguments count_true : simpl never.

(** [row[mask]] for a boolean [mask]. *)
Fixpoint compress {T} (mask : list bool) (row : list T) : list T :=
  match mask, row with
  | b :: mask', x :: row' => if b then x :: compress mask' row' else compress mask' row'
  | _, _ => []
  end.

(** [X[:, mask]] *)
Definition select_columns {T} (mask : list bool) (X : matrix T) : matrix T :=
  Matrix (count_true mask) (List.map (compress mask) (rows X)).

(** The elements of [a] at the [True] positions of [mask] are replaced, in
    order, by the elements of [vals]. *)
Fixpoint scatter (a mask vals : list bool) : list bool :=
  match a, mask with
  | x :: a', true :: mask' =>
      match vals with
      | v :: vals' => v :: scatter a' mask' vals'
      | [] => x :: scatter a' mask' []
      end
  | x :: a', false :: mask' => x :: scatter a' mask' vals
  | _, _ => a
  end.

(** [a[mask] = vals] on one-dimensional boolean arrays: NumPy assigns
    element by element when [vals] has as many elements as [mask] has
    [True]s, broadcasts a single element, and raises otherwise. *)
Definition setitem_mask (a mask vals : list bool) : outcome (list bool) :=
  if Nat.eqb (length vals) (count_true mask) then Ret (scatter a mask vals)
  else match vals with
       | [v] => Ret (scatter a mask (repeat v (count_true mask)))
       | _ => Raise (ValueError "NumPy boolean array indexing assignment cannot assign input values to the output values where the mask is true")
       end.

(** Floating-point values, idealised as reals with the special values. *)
Inductive npfloat : Type :=
| Fin (r : R)
| NegInf
| PosInf
| NaN.

(** [v < 0] *)
Definition np_lt0 (v : npfloat) : bool :=
  match v with
  | Fin r => if Rlt_dec r 0 then true else false
  | NegInf => true
  | PosInf | NaN => false
  end.

(** [np.log]: [log(0)] is [-inf] and the logarithm of a negative number is
    [nan], both with a warning only. *)
Definition np_log (v : npfloat) : npfloat :=
  match v with
  | Fin r => if Rlt_dec 0 r then Fin (ln r)
             else if Req_dec_T r 0 then NegInf else NaN
  | NegInf => NaN
  | PosInf => PosInf
  | NaN => NaN
  end.

Definition np_exp (v : npfloat) : npfloat :=
  match v with
  | Fin r => Fin (exp r)
  | NegInf => Fin 0
  | PosInf => PosInf
  | NaN => NaN
  end.

Definition np_neg (v : npfloat) : npfloat :=
  match v with
  | Fin r => Fin (- r)
  | NegInf => PosInf
  | PosInf => NegInf
  | NaN => NaN
  end.

Definition Rsum (l : list R) : R := fold_right Rplus 0%R l.

(** Mean and variance of a one-dimensional sample; of no sample at all,
    NumPy returns [nan]. *)
Definition mean1 (xs : list R) : npfloat :=
  match xs with
  | [] => NaN
  | _ => Fin (Rsum xs / INR (length xs))
  end.

Definition var1 (xs : list R) : npfloat :=
  match xs with
  | [] => NaN
  | _ => let m := (Rsum xs / INR (length xs))%R in
         Fin (Rsum (List.map (fun x => (x - m) * (x - m))%R xs) / INR (length xs))
  end.

Definition column (X : matrix R) (j : nat) : list R :=
  List.map (fun r => nth j r 0%R) (rows X).

(** [np.mean(X, axis=0)] and [np.var(X, axis=0)] *)
Definition np_mean_axis0 (X : matrix R) : list npfloat :=
  List.map (fun j => mean1 (column X j)) (seq 0 (n_cols X)).

Definition np_var_axis0 (X : matrix R) : list npfloat :=
  List.map (fun j => var1 (column X j)) (seq 0 (n_cols X)).

End Numpy.

(** ** [divik/_feature_selection/_stat_selector_mixin.py] *)

Module StatSelectorMixin.
Import Numpy.

(** The attributes of [self] that the mixin reads.  [use_log] and
    [preserve_high] are looked up with [hasattr]: [None] is an object
    without the attribute. *)
Record self_ : Type := Self {
  stat : string;
  use_log : option bool;
  preserve_high : option bool
}.

(** [hasattr(self, a) and self.a] and [hasattr(self, a) and not self.a] *)
Definition has_and (a : option bool) : bool :=
  match a with Some b => b | None => false end.
Definition has_and_not (a : option bool) : bool :=
  match a with Some b => negb b | None => false end.

(** [_to_characteristics] on the statistic already computed: the check, the
    logarithm and the sign flip. *)
Definition normalize (self : self_) (vals : list npfloat) : outcome (list npfloat) :=
  match (if has_and (use_log self)
         then if existsb np_lt0 vals
              then Raise (ValueError "Feature characteristic cannot be negative with log filtering")
              else Ret (List.map np_log vals)
         else Ret vals) with
  | Raise e => Raise e
  | Ret vals =>
      Ret (if has_and_not (preserve_high self) then List.map np_neg vals else vals)
  end.

Definition _to_characteristics (self : self_) (X : matrix R) : outcome (list npfloat) :=
  if String.eqb (stat self) "mean" then normalize self (np_mean_axis0 X)
  else if String.eqb (stat self) "var" then normalize self (np_var_axis0 X)
  else Raise (ValueError "stat must be one of {mean, var}").

Definition _to_raw (self : self_) (threshold : npfloat) : npfloat :=
  let threshold := if has_and_not (preserve_high self) then np_neg threshold else threshold in
  let threshold := if has_and (use_log self) then np_exp threshold else threshold in
  threshold.

(** The transform that [_to_characteristics] applies to one (valid) value:
    natural logarithm under [use_log], then negation unless
    [preserve_high]. *)
Definition to_characteristic_space (self : self_) (v : npfloat) : npfloat :=
  let v := if has_and (use_log self) then np_log v else v in
  if has_and_not (preserve_high self) then np_neg v else v.

Definition _get_support_mask (selected_ : list bool) : list bool := selected_.

End StatSelectorMixin.

(** ** [divik/_feature_selection/_specialized.py] *)

Module Specialized.
Import Numpy.

(** Python's [max(a, b)] returns [a] unless [b] is greater. *)
Definition py_max (a b : Q) : Q := if Qle_bool b a then a else b.

(** The keyword arguments with which a [GMMSelector] is constructed here. *)
Record GMMSelector_args : Type := GMMSelector {
  stat : string;
  use_log : bool;
  n_candidates : option Z;
  min_features : Q;
  preserve_high : bool;
  max_components : Z
}.

(** A fitted [GMMSelector]: how it was built and its [selected_] mask. *)
Record GMMSelector_fitted : Type := GMMFitted {
  args : GMMSelector_args;
  gmm_selected_ : list bool
}.

(** The configuration of a [HighAbundanceAndVarianceSelector]. *)
Record config : Type := Config {
  cfg_use_log : bool;
  cfg_min_features : Z;
  cfg_min_features_rate : Q;
  cfg_max_components : Z
}.

(** [HighAbundanceAndVarianceSelector()] with its defaults. *)
Definition default_config : config := Config false 1 0 10.

Record fitted : Type := Fitted {
  abundance_selector_ : GMMSelector_fitted;
  variance_selector_ : GMMSelector_fitted;
  selected_ : list bool
}.

(** [SelectorMixin.transform] of scikit-learn, on a fitted mask: an empty
    selection gives a matrix without columns, a mask of another length than
    the matrix is refused. *)
Definition transform {T} (mask : list bool) (X : matrix T) : outcome (matrix T) :=
  if negb (existsb (fun b => b) mask) then Ret (Matrix 0 (List.map (fun _ => []) (rows X)))
  else if negb (Nat.eqb (length mask) (n_cols X))
       then Raise (ValueError "X has a different shape than during fitting.")
       else Ret (select_columns mask X).

Section Fit.
Context {T : Type}.
(** [GMMSelector(...).fit(X).selected_]: the class lives in
    [_gmm_selector.py], which is not part of the sources at hand; its
    fitting is a parameter of the development. *)
Variable GMMSelector_fit : GMMSelector_args -> matrix T -> outcome (list bool).

Definition stage_min_features (self : config) (X : matrix T) : Q :=
  py_max (inject_Z (cfg_min_features self))
         (cfg_min_features_rate self * inject_Z (Z.of_nat (n_cols X))).

Definition abundance_args (self : config) (X : matrix T) : GMMSelector_args :=
  GMMSelector "mean" (cfg_use_log self) (Some 1%Z) (stage_min_features self X)
              true (cfg_max_components self).

Definition variance_args (self : config) (X : matrix T) : GMMSelector_args :=
  GMMSelector "var" (cfg_use_log self) None (stage_min_features self X)
              true (cfg_max_components self).

Definition fit (self : config) (X : matrix T) : outcome fitted :=
  match GMMSelector_fit (abundance_args self X) X with
  | Raise e => Raise e
  | Ret abundance_mask =>
      match transform abundance_mask X with
      | Raise e => Raise e
      | Ret filtered =>
          let selected := abundance_mask in
          match GMMSelector_fit (variance_args self X) filtered with
          | Raise e => Raise e
          | Ret variance_mask =>
              match setitem_mask selected selected variance_mask with
              | Raise e => Raise e
              | Ret selected =>
                  Ret (Fitted (GMMFitted (abundance_args self X) abundance_mask)
                              (GMMFitted (variance_args self X) variance_mask)
                              selected)
              end
          end
      end
  end.

Definition _get_support_mask (f : fitted) : list bool := selected_ f.
End Fit.

(** Modelled from the spec: [_gmm_selector.py] is not among the sources;
    the spec gives a fitted GMMSelector a mask with one entry per column of
    the matrix it was fit on. *)
Definition GMMSelector_mask_length {T}
    (GMMSelector_fit : GMMSelector_args -> matrix T -> outcome (list bool)) : Prop :=
  forall a X mask, GMMSelector_fit a X = Ret mask -> length mask = n_cols X.

(** Modelled from the spec: the minimum retained feature count that a
    GMMSelector enforces (section 4.2, step 5) is the larger of its
    [min_features] and its [min_features_rate] times the column count of
    its input, rounded up; no [min_features_rate] is passed to the two
    stages, so that their rate is the default [0.0].  A retained count [c]
    meets the minimum when it is not below it. *)
Definition meets_minimum (g : GMMSelector_args) (w : nat) (c : nat) : bool :=
  Qle_bool (py_max (min_features g) (inject_Z (Qceiling (0 * inject_Z (Z.of_nat w)))))
           (inject_Z (Z.of_nat c)).

(** The bound as the claim words it, for a stage whose input has [w]
    columns. *)
Definition claimed_minimum (self : config) (w : nat) : Z :=
  Z.max (cfg_min_features self)
        (Qceiling (cfg_min_features_rate self * inject_Z (Z.of_nat w))).

(** A stand-in for the fitting of a GMMSelector, to run [fit] on concrete
    integer matrices: the mean stage keeps the columns whose sum is positive,
    the variance stage keeps the columns that are not constant, and a matrix
    without columns is refused. *)
Definition column_Z (X : matrix Z) (j : nat) : list Z :=
  List.map (fun r => nth j r 0%Z) (rows X).

Definition is_constant (xs : list Z) : bool :=
  match xs with
  | [] => true
  | x :: rest => forallb (Z.eqb x) rest
  end.

Definition sample_GMMSelector_fit (a : GMMSelector_args) (X : matrix Z) : outcome (list bool) :=
  if Nat.eqb (n_cols X) 0 then Raise (ValueError "Found array with 0 feature(s)")
  else Ret (List.map
              (fun j => if String.eqb (stat a) "mean"
                        then (0 <? fold_right Z.add 0 (column_Z X j))%Z
                        else negb (is_constant (column_Z X j)))
              (seq 0 (n_cols X))).

(** Two matrices to run the selectors on, of two rows and four columns. *)
Definition sample_X : matrix Z := Matrix 4 [[5; 1; 0; 2]; [5; 3; 0; 2]]%Z.
Definition sample_X' : matrix Z := Matrix 4 [[1; 2; 0; -1]; [3; 6; 0; -1]]%Z.

End Specialized.

(** ** More of NumPy: arithmetic on floats and stacking *)

Module NumpyArith.
Import Numpy.

(** Float arithmetic with the special values.  The reals have one zero
    only: a finite number divided by zero takes the sign of the number. *)
Definition np_add (a b : npfloat) : npfloat :=
  match a, b with
  | NaN, _ | _, NaN => NaN
  | Fin x, Fin y => Fin (x + y)
  | PosInf, NegInf | NegInf, PosInf => NaN
  | PosInf, _ | _, PosInf => PosInf
  | NegInf, _ | _, NegInf => NegInf
  end.

Definition np_sub (a b : npfloat) : npfloat := np_add a (np_neg b).

Definition np_abs (a : npfloat) : npfloat :=
  match a with
  | Fin x => Fin (Rabs x)
  | PosInf | NegInf => PosInf
  | NaN => NaN
  end.

(** [a ** 2] *)
Definition np_square (a : npfloat) : npfloat :=
  match a with
  | Fin x => Fin (x * x)
  | PosInf | NegInf => PosInf
  | NaN => NaN
  end.

(** [a ** (1./2)] *)
Definition np_sqrt (a : npfloat) : npfloat :=
  match a with
  | Fin x => if Rlt_dec x 0 then NaN else Fin (sqrt x)
  | PosInf | NegInf => PosInf
  | NaN => NaN
  end.

Definition np_div (a b : npfloat) : npfloat :=
  match a, b with
  | NaN, _ | _, NaN => NaN
  | Fin x, Fin y =>
      if Req_dec_T y 0
      then if Req_dec_T x 0 then NaN else if Rlt_dec 0 x then PosInf else NegInf
      else Fin (x / y)
  | Fin _, (PosInf | NegInf) => Fin 0
  | PosInf, Fin y => if Rlt_dec y 0 then NegInf else PosInf
  | NegInf, Fin y => if Rlt_dec y 0 then PosInf else NegInf
  | (PosInf | NegInf), (PosInf | NegInf) => NaN
  end.

(** [np.sum] of a one-dimensional array; the empty sum is [0.0]. *)
Definition np_sum (l : list npfloat) : npfloat := fold_right np_add (Fin 0) l.

(** [a.reshape(-1, 1)]: a one-dimensional array as a single column. *)
Definition reshape_column {T} (a : list T) : matrix T :=
  Matrix 1 (List.map (fun x => [x]) a).

(** Two arrays side by side; their row counts have to agree. *)
Definition hstack2 {T} (A B : matrix T) : outcome (matrix T) :=
  if Nat.eqb (length (rows A)) (length (rows B))
  then Ret (Matrix (n_cols A + n_cols B) (zip_with (@app T) (rows A) (rows B)))
  else Raise (ValueError "all the input array dimensions except for the concatenation axis must match exactly").

(** [np.hstack] of a list of two-dimensional arrays. *)
Definition np_hstack {T} (arrays : list (matrix T)) : outcome (matrix T) :=
  match arrays with
  | [] => Raise (ValueError "need at least one array to concatenate")
  | A :: rest =>
      fold_left (fun acc B => match acc with
                              | Ret M => hstack2 M B
                              | Raise e => Raise e
                              end)
                rest (Ret A)
  end.

End NumpyArith.

(** ** [divik/core.py]: utilities *)

Module Utils.
Import Numpy NumpyArith.

(** [normalize_rows] on one row: [data.mean(axis=1)] is the mean of the
    row, the norm is taken with [keepdims] and so divides the row it was
    computed from.  The subtraction builds a new array: [data] itself is
    not written to. *)
Definition normalize_row (row : list R) : list npfloat :=
  let mean := mean1 row in
  let normalized := List.map (fun x => np_sub (Fin x) mean) row in
  let norms := np_sqrt (np_sum (List.map (fun v => np_square (np_abs v)) normalized)) in
  List.map (fun v => np_div v norms) normalized.

Definition normalize_rows (data : matrix R) : matrix npfloat :=
  Matrix (n_cols data) (List.map normalize_row (rows data)).


End Utils.

(** ** [divik/_cli/auto_kmeans.py] *)

Module AutoKMeansCli.
Import Numpy NumpyArith.

(** What the script reads of a fitted estimator and of a fitted
    [AutoKMeans]. *)
Record estimator : Type := Estimator {
  labels_ : list Z;
  cluster_centers_ : matrix R
}.

Record auto_kmeans : Type := AutoKMeans {
  estimators_ : list estimator;
  min_clusters : Z
}.

Definition get_segmentations (kmeans : auto_kmeans) : list (list Z * matrix R) :=
  List.map (fun est => (labels_ est, cluster_centers_ est)) (estimators_ kmeans).

Definition make_segmentations_matrix (kmeans : auto_kmeans) : outcome (matrix Z) :=
  np_hstack (List.map (fun e => reshape_column (labels_ e)) (estimators_ kmeans)).

(** The numbered tables that the loop of [save] writes out: for every
    column [i] of the partitions matrix the number [i + min_clusters] that
    goes into the file name and the column [partitions[:, i]], reshaped. *)
Definition partition_tables (kmeans : auto_kmeans) (partitions : matrix Z)
  : list (Z * matrix Z) :=
  List.map (fun i => ((Z.of_nat i + min_clusters kmeans)%Z,
                      reshape_column (List.map (fun r => nth i r 0%Z) (rows partitions))))
           (seq 0 (n_cols partitions)).

(** The table whose row [r] lists label [r] of every estimator. *)
Definition label_table (ests : list estimator) (n : nat) : matrix Z :=
  Matrix (length ests)
         (List.map (fun r => List.map (fun e => nth r (labels_ e) 0) ests) (seq 0 n)).

End AutoKMeansCli.

(** * Properties *)

(** ** The state-and-exception monad *)

Lemma bind_ret_l {S A B} (a : A) (k : A -> Py S B) (s : S) :
  bind (ret a) k s = k a s.
Proof. reflexivity. Qed.

Lemma bind_assoc {S A B C} (m : Py S A) (k : A -> Py S B) (h : B -> Py S C) (s : S) :
  bind (bind m k) h s = bind m (fun a => bind (k a) h) s.
Proof. unfold bind. destruct (m s) as [[a|e] s']; reflexivity. Qed.

Lemma bind_ext {S A B} (m : Py S A) (k k' : A -> Py S B) (s : S) :
  (forall a s', k a s' = k' a s') -> bind m k s = bind m k' s.
Proof. intros H. unfold bind. destruct (m s) as [[a|e] s']; [apply H | reflexivity]. Qed.

(** ** Worker pools *)

Example get_n_jobs_default : Parallel.get_n_jobs (Some 8) None = 1.
Proof. reflexivity. Qed.

Example get_n_jobs_all_cpus : Parallel.get_n_jobs (Some 8) (Some (-1)) = 8.
Proof. reflexivity. Qed.

Example get_n_jobs_zero : Parallel.get_n_jobs (Some 8) (Some 0) = 8.
Proof. reflexivity. Qed.

Example maybe_pool_single_cpu :
  Parallel.maybe_pool None (Some (-1)) = Ret (Parallel.DummyPool 1).
Proof. reflexivity. Qed.

Example maybe_pool_parallel :
  Parallel.maybe_pool (Some 8) (Some (-1)) = Ret (Parallel.Pool 8).
Proof. reflexivity. Qed.

Example chunks_of_two :
  Parallel.chunks 5 2 [1; 2; 3; 4; 5] = [[1; 2]; [3; 4]; [5]].
Proof. reflexivity. Qed.

Section PoolFacts.
Import Parallel.
Context {S R : Type}.

Lemma list_comprehension_acc {A} (e : A -> Py S R) (xs : list A) :
  forall (acc : list R) (s : S),
    list_comprehension e xs acc s
    = (do ys <- sequential e xs; ret (acc ++ ys)) s.
Proof.
  induction xs as [|x xs IH]; intros acc s; simpl.
  - unfold bind, ret. by rewrite app_nil_r.
  - rewrite bind_assoc. apply bind_ext. intros y s1.
    rewrite IH, bind_assoc. apply bind_ext. intros ys s2.
    rewrite bind_ret_l. unfold ret. by rewrite <- app_assoc.
Qed.

Lemma list_comprehension_sequential {A} (e : A -> Py S R) (xs : list A) (s : S) :
  list_comprehension e xs [] s = sequential e xs s.
Proof.
  rewrite list_comprehension_acc. unfold bind, ret.
  destruct (sequential e xs s) as [[ys|err] s']; reflexivity.
Qed.

Lemma sequential_pure {A} (f : A -> R) (xs : list A) (s : S) :
  sequential (fun x => ret (f x)) xs s = (Ret (List.map f xs), s).
Proof.
  induction xs as [|x xs IH]; [reflexivity|].
  simpl. unfold bind at 1. simpl. unfold bind. rewrite IH. reflexivity.
Qed.

Lemma concat_chunks {A} (k : nat) (fuel : nat) :
  forall xs : list A,
    (length xs <= fuel)%nat -> concat (chunks fuel (Datatypes.S k) xs) = xs.
Proof.
  induction fuel as [|fuel IH]; intros xs Hlen.
  - destruct xs; [reflexivity | simpl in Hlen; lia].
  - destruct xs as [|x xs]; [reflexivity|].
    cbn [chunks concat]. rewrite IH.
    + apply take_drop.
    + rewrite length_drop. simpl in *. lia.
Qed.

Lemma Pool_map_reference_map {A} (k : nat) (f : A -> R) (xs : list A) :
  Pool_map_reference (Datatypes.S k) f xs = List.map f xs.
Proof.
  unfold Pool_map_reference.
  rewrite <- concat_map, concat_chunks; [reflexivity | lia].
Qed.
End PoolFacts.

(** C6. When the job count resolved by [get_n_jobs] is 1 (or 0),
    [maybe_pool] yields a [DummyPool]; its [map] and [starmap] evaluate the
    function on the elements one after the other in the calling process,
    threading the state from one call to the next and stopping at the first
    exception, and its [apply] is the plain call.  On a side-effect-free
    function the result of [map] is the list that the chunked evaluation of
    a process pool returns, whichever the chunk size. *)
Theorem C6_dummy_pool_sequential {S R : Type}
    (cpu_count processes : option Z)
    (Hjobs : Parallel.get_n_jobs cpu_count processes = 1
             \/ Parallel.get_n_jobs cpu_count processes = 0) :
  Parallel.maybe_pool cpu_count processes
    = Ret (Parallel.DummyPool (Parallel.get_n_jobs cpu_count processes))
  /\ (forall (func : pyfun S R) iterable chunksize s,
        Parallel.DummyPool_map func iterable chunksize s
        = Parallel.sequential (fun v => func [v] ∅) iterable s)
  /\ (forall (func : pyfun S R) iterable chunksize s,
        Parallel.DummyPool_starmap func iterable chunksize s
        = Parallel.sequential (fun v => func v ∅) iterable s)
  /\ (forall (func : pyfun S R) args kwds s,
        Parallel.DummyPool_apply func args kwds s = func args kwds s)
  /\ (forall (f : pyval -> R) iterable chunksize k (s : S),
        Parallel.DummyPool_map (fun a _ => ret (f (List.hd (PyInt 0) a)))
                               iterable chunksize s
        = (Ret (Parallel.Pool_map_reference (Datatypes.S k) f iterable), s)).
Proof.
  repeat split.
  - unfold Parallel.maybe_pool.
    destruct Hjobs as [-> | ->]; reflexivity.
  - intros. apply list_comprehension_sequential.
  - intros. apply list_comprehension_sequential.
  - intros. unfold Parallel.DummyPool_map.
    rewrite list_comprehension_sequential, Pool_map_reference_map.
    apply (sequential_pure (fun v => f v)).
Qed.

Lemma C6_dummy_pool_sequential_witness :
  Parallel.maybe_pool (Some 8) (Some 1) = Ret (Parallel.DummyPool 1)
  /\ Parallel.DummyPool_map (S := Z) (R := Z)
       (fun a _ => fun s => (Ret (s + match a with [PyInt z] => z | _ => 0 end), s + 1))
       [PyInt 10; PyInt 20; PyInt 30] None 0
     = (Ret [10; 21; 32], 3).
Proof.
  split.
  - apply (C6_dummy_pool_sequential (S := Z) (R := Z) (Some 8) (Some 1)).
    left. reflexivity.
  - destruct (C6_dummy_pool_sequential (S := Z) (R := Z) (Some 8) (Some 1)
                (or_introl eq_refl)) as (_ & Hmap & _).
    rewrite Hmap. reflexivity.
Defined.

(** ** Seeded scopes *)

Example seed_scope_returns :
  Random.seed Random.sample_init_by_seed (PyInt 0) Random.sample_draw 7
  = (Ret 12345, 7).
Proof. reflexivity. Qed.

Example seed_scope_invalid_seed :
  Random.seed Random.sample_init_by_seed (PyInt (-1)) Random.sample_draw 7
  = (Raise (ValueError "Seed must be between 0 and 2**32 - 1"), 7).
Proof. reflexivity. Qed.

Section SeedFacts.
Import Random.
Context {RngState : Type}.
Variable init_by_seed : Z -> RngState.

Lemma np_random_seed_valid (z : Z) (st : RngState) :
  valid_seed z = true ->
  np_random_seed init_by_seed (PyInt z) st = (Ret tt, init_by_seed z).
Proof using Type. unfold np_random_seed. simpl. by intros ->. Qed.

(** The outcome of entering the scope does not depend on the generator
    state found on entry. *)
Lemma np_random_seed_outcome (v : pyval) (st1 st2 : RngState) :
  fst (np_random_seed init_by_seed v st1) = fst (np_random_seed init_by_seed v st2)
  /\ (forall u st', np_random_seed init_by_seed v st1 = (Ret u, st') ->
                    np_random_seed init_by_seed v st2 = (Ret u, st')).
Proof using Type.
  unfold np_random_seed.
  destruct (operator_index v) as [z|]; simpl; [|split; [reflexivity | discriminate]].
  destruct (valid_seed z); simpl.
  - split; [reflexivity | intros u st' [= <- <-]; reflexivity].
  - split; [reflexivity | discriminate].
Qed.

(** A block that ends normally leaves the generator as it was on entry. *)
Lemma seed_restores_on_return {A} (z : Z) (block : Py RngState A) (st st' : RngState) (a : A) :
  valid_seed z = true ->
  block (init_by_seed z) = (Ret a, st') ->
  seed init_by_seed (PyInt z) block st = (Ret a, st).
Proof using Type.
  intros Hz Hb. unfold seed, with_generator, bind, np_random_get_state.
  rewrite (np_random_seed_valid z st Hz). simpl. rewrite Hb. reflexivity.
Qed.

(** A block that raises leaves the generator where the block left it. *)
Lemma seed_keeps_state_on_raise {A} (z : Z) (block : Py RngState A) (st st' : RngState) (e : exn) :
  valid_seed z = true ->
  block (init_by_seed z) = (Raise e, st') ->
  seed init_by_seed (PyInt z) block st = (Raise e, st').
Proof using Type.
  intros Hz Hb. unfold seed, with_generator, bind, np_random_get_state.
  rewrite (np_random_seed_valid z st Hz). simpl. rewrite Hb. reflexivity.
Qed.

Lemma seed_outcome_independent {A} (v : pyval) (block : Py RngState A) (st1 st2 : RngState) :
  fst (seed init_by_seed v block st1) = fst (seed init_by_seed v block st2).
Proof using Type.
  unfold seed, with_generator, bind, np_random_get_state.
  destruct (np_random_seed_outcome v st1 st2) as [Ho Hs].
  destruct (np_random_seed init_by_seed v st1) as [[[]|e1] s1] eqn:E1.
  - rewrite (Hs tt s1 eq_refl). simpl.
    destruct (block s1) as [[a|e] s']; reflexivity.
  - destruct (np_random_seed init_by_seed v st2) as [[[]|e2] s2] eqn:E2;
      simpl in *; [discriminate | by injection Ho as ->].
Qed.
End SeedFacts.

(** C5. On the failing path the state saved on entry is not put back: a
    block that draws a number and then raises, entered from generator state
    7 under [seed(0)], leaves the generator in state 12345, the one the block
    reached from the seeded state, and not in state 7. *)
Theorem C5_seed_not_restored_on_raise :
  Random.seed Random.sample_init_by_seed (PyInt 0)
    (do_ Random.sample_draw; raise (A := unit) (RuntimeError "boom")) 7
  = (Raise (RuntimeError "boom"), 12345).
Proof. reflexivity. Qed.

(** C8. A call of a function wrapped by [seeded] returns (or raises) the same
    thing from whatever state the global generator is in when the call is
    made; when the seed is a valid one the wrapped function runs from the
    generator state that the seed determines. *)
Theorem C8_seeded_reproducible {RngState R : Type} (init_by_seed : Z -> RngState)
    (wrapped_requires_seed : bool) (func : pyfun RngState R)
    (args : list pyval) (kwargs : gmap string pyval) :
  (forall st1 st2 : RngState,
      fst (Random.seeded init_by_seed wrapped_requires_seed func args kwargs st1)
      = fst (Random.seeded init_by_seed wrapped_requires_seed func args kwargs st2))
  /\ (forall z : Z,
        default (PyInt 0) (kwargs !! "seed"%string) = PyInt z ->
        Random.valid_seed z = true ->
        exists kwargs' : gmap string pyval,
          forall st : RngState,
            fst (Random.seeded init_by_seed wrapped_requires_seed func args kwargs st)
            = fst (func args kwargs' (init_by_seed z))).
Proof.
  split.
  - intros st1 st2. unfold Random.seeded.
    destruct wrapped_requires_seed; simpl; apply seed_outcome_independent.
  - intros z Hseed Hz.
    exists (if wrapped_requires_seed then kwargs else delete "seed"%string kwargs).
    intros st. unfold Random.seeded.
    destruct wrapped_requires_seed; simpl; rewrite Hseed;
      unfold Random.seed, Random.with_generator, bind, Random.np_random_get_state;
      rewrite (np_random_seed_valid init_by_seed z st Hz); simpl;
      match goal with |- context [func ?a ?k ?s] => destruct (func a k s) as [[r|e] s'] end;
      reflexivity.
Qed.

(** C10. With [wrapped_requires_seed=False] the wrapped function is called
    with the keyword arguments minus ["seed"], all others untouched; with
    [wrapped_requires_seed=True] it is called with the keyword arguments as
    they came; in both modes the scope is seeded with the value of ["seed"],
    or with 0 when there is none. *)
Theorem C10_seeded_keyword {RngState R : Type} (init_by_seed : Z -> RngState)
    (func : pyfun RngState R) (args : list pyval) (kwargs : gmap string pyval) :
  (exists kwargs' : gmap string pyval,
      Random.seeded init_by_seed false func args kwargs
      = Random.seed init_by_seed (default (PyInt 0) (kwargs !! "seed"%string))
                    (func args kwargs')
      /\ kwargs' !! "seed"%string = None
      /\ forall key, key <> "seed"%string -> kwargs' !! key = kwargs !! key)
  /\ Random.seeded init_by_seed true func args kwargs
     = Random.seed init_by_seed (default (PyInt 0) (kwargs !! "seed"%string))
                   (func args kwargs)
  /\ (kwargs !! "seed"%string = None ->
      forall wrapped_requires_seed,
        Random.seeded init_by_seed wrapped_requires_seed func args kwargs
        = Random.seed init_by_seed (PyInt 0) (func args kwargs)).
Proof.
  split; [|split].
  - exists (delete "seed"%string kwargs). split; [reflexivity|]. split.
    + apply lookup_delete_eq.
    + intros key Hkey. by apply lookup_delete_ne.
  - reflexivity.
  - intros Hnone [|]; unfold Random.seeded, Random.dict_get, Random.dict_pop;
      rewrite Hnone; simpl; [reflexivity|].
    by rewrite delete_id.
Qed.

(** ** Boolean masks *)

Example scatter_example :
  Numpy.setitem_mask [true; false; true; true] [true; false; true; true]
                     [false; true; false]
  = Ret [false; false; true; false].
Proof. reflexivity. Qed.

Example setitem_mask_broadcast :
  Numpy.setitem_mask [true; false; true] [true; false; true] [false]
  = Ret [false; false; false].
Proof. reflexivity. Qed.

Example setitem_mask_mismatch :
  exists e, Numpy.setitem_mask [true; false; true] [true; false; true] [] = Raise e.
Proof. eexists. reflexivity. Qed.

Section MaskFacts.
Import Numpy.

Lemma count_true_cons (b : bool) (mask : list bool) :
  count_true (b :: mask) = ((if b then 1 else 0) + count_true mask)%nat.
Proof. unfold count_true. destruct b; reflexivity. Qed.

Lemma count_true_none (mask : list bool) :
  existsb (fun b => b) mask = false -> count_true mask = 0%nat.
Proof.
  induction mask as [|b mask IH]; [reflexivity|].
  simpl. rewrite count_true_cons. destruct b; simpl; [discriminate|exact IH].
Qed.

Lemma length_scatter (a : list bool) :
  forall mask vals, length (scatter a mask vals) = length a.
Proof.
  induction a as [|x a IH]; intros [|[|] mask] vals; simpl; try reflexivity.
  - destruct vals; simpl; by rewrite IH.
  - by rewrite IH.
Qed.

(** After [a[a] = vals], position [i] holds [vals] at the rank of [i]
    among the [True] positions of [a], and [False] where [a] had
    [False]. *)
Lemma scatter_self_nth (a : list bool) :
  forall vals i,
    length vals = count_true a ->
    nth i (scatter a a vals) false
    = nth i a false && nth (count_true (take i a)) vals false.
Proof.
  induction a as [|x a IH]; intros vals i Hlen.
  - destruct i; reflexivity.
  - rewrite count_true_cons in Hlen. destruct x; simpl.
    + destruct vals as [|v vals]; [simpl in Hlen; lia|].
      destruct i as [|i]; [reflexivity|].
      rewrite firstn_cons, count_true_cons. simpl. apply IH. simpl in Hlen. lia.
    + destruct i as [|i]; [reflexivity|].
      rewrite firstn_cons, count_true_cons. simpl. apply IH. exact Hlen.
Qed.

Lemma scatter_self_count (a : list bool) :
  forall vals,
    length vals = count_true a ->
    count_true (scatter a a vals) = count_true vals.
Proof.
  induction a as [|x a IH]; intros vals Hlen.
  - destruct vals; [reflexivity | discriminate].
  - rewrite count_true_cons in Hlen. destruct x; simpl.
    + destruct vals as [|v vals]; [simpl in Hlen; lia|].
      rewrite !count_true_cons, IH; [reflexivity | simpl in Hlen; lia].
    + rewrite count_true_cons, IH; [reflexivity | exact Hlen].
Qed.
End MaskFacts.

(** ** HighAbundanceAndVarianceSelector *)

Section FitFacts.
Import Numpy Specialized.
Context {T : Type}.
Variable GMMSelector_fit : GMMSelector_args -> matrix T -> outcome (list bool).

Lemma transform_n_cols (mask : list bool) (X filtered : matrix T) :
  transform mask X = Ret filtered -> n_cols filtered = count_true mask.
Proof using Type.
  unfold transform. destruct (existsb (fun b => b) mask) eqn:E; simpl.
  - destruct (Nat.eqb (length mask) (n_cols X)); simpl; [|discriminate].
    by intros [= <-].
  - intros [= <-]. simpl. symmetry. by apply count_true_none.
Qed.

(** What a successful [fit] has gone through. *)
Lemma fit_inv (self : config) (X : matrix T) (f : fitted) :
  fit GMMSelector_fit self X = Ret f ->
  exists abundance_mask filtered variance_mask selected,
    GMMSelector_fit (abundance_args self X) X = Ret abundance_mask
    /\ transform abundance_mask X = Ret filtered
    /\ GMMSelector_fit (variance_args self X) filtered = Ret variance_mask
    /\ setitem_mask abundance_mask abundance_mask variance_mask = Ret selected
    /\ f = Fitted (GMMFitted (abundance_args self X) abundance_mask)
                  (GMMFitted (variance_args self X) variance_mask)
                  selected.
Proof using Type.
  unfold fit.
  destruct (GMMSelector_fit (abundance_args self X) X) as [a|] eqn:Ea; [|discriminate].
  destruct (transform a X) as [filtered|] eqn:Et; [|discriminate].
  destruct (GMMSelector_fit (variance_args self X) filtered) as [v|] eqn:Ev; [|discriminate].
  destruct (setitem_mask a a v) as [sel|] eqn:Es; [|discriminate].
  intros [= <-]. by exists a, filtered, v, sel.
Qed.

Lemma setitem_mask_exact (a vals : list bool) :
  length vals = count_true a -> setitem_mask a a vals = Ret (scatter a a vals).
Proof using Type.
  intros H. unfold setitem_mask. by rewrite H, Nat.eqb_refl.
Qed.
End FitFacts.

Section SelectorTheorems.
Import Numpy Specialized.
Context {T : Type}.
Variable GMMSelector_fit : GMMSelector_args -> matrix T -> outcome (list bool).
Hypothesis mask_length : GMMSelector_mask_length GMMSelector_fit.

(** The masks of a successful [fit], with their lengths. *)
Lemma fit_masks (self : config) (X : matrix T) (f : fitted) :
  fit GMMSelector_fit self X = Ret f ->
  let a := gmm_selected_ (abundance_selector_ f) in
  let v := gmm_selected_ (variance_selector_ f) in
  length a = n_cols X /\ length v = count_true a /\ selected_ f = scatter a a v.
Proof using mask_length.
  intros Hfit.
  destruct (fit_inv GMMSelector_fit self X f Hfit)
    as (a & filtered & v & sel & Ha & Ht & Hv & Hs & ->).
  simpl.
  assert (Hlv : length v = count_true a).
  { rewrite (mask_length _ _ _ Hv). by apply (transform_n_cols a X). }
  rewrite (setitem_mask_exact a v Hlv) in Hs. injection Hs as <-.
  split; [exact (mask_length _ _ _ Ha) | split; [exact Hlv | reflexivity]].
Qed.
End SelectorTheorems.

(** C1. After a successful [fit], [selected_] is [True] at column [i] exactly
    when the abundance mask is [True] at [i] and the variance mask is [True]
    at the rank of [i] among the columns that the abundance mask keeps; the
    two masks therefore count the same number of [True]s. *)
Theorem C1_selected_is_scattered_conjunction {T : Type}
    (GMMSelector_fit : Specialized.GMMSelector_args -> Numpy.matrix T -> outcome (list bool))
    (mask_length : Specialized.GMMSelector_mask_length GMMSelector_fit)
    (self : Specialized.config) (X : Numpy.matrix T) (f : Specialized.fitted)
    (Hfit : Specialized.fit GMMSelector_fit self X = Ret f) :
  let a := Specialized.gmm_selected_ (Specialized.abundance_selector_ f) in
  let v := Specialized.gmm_selected_ (Specialized.variance_selector_ f) in
  (forall i : nat,
      nth i (Specialized.selected_ f) false
      = nth i a false && nth (Numpy.count_true (take i a)) v false)
  /\ Numpy.count_true (Specialized.selected_ f) = Numpy.count_true v.
Proof.
  destruct (fit_masks GMMSelector_fit mask_length self X f Hfit) as (_ & Hlv & Hsel).
  simpl. rewrite Hsel. split.
  - intros i. by apply scatter_self_nth.
  - by apply scatter_self_count.
Qed.

(** C7. After a successful [fit] of a HighAbundanceAndVarianceSelector on
    [X], the mask returned by [_get_support_mask] has one entry per column of
    [X], although the variance stage was fit on the narrower matrix: the mask
    of that stage has one entry per column kept by the abundance stage. *)
Theorem C7_mask_length {T : Type}
    (GMMSelector_fit : Specialized.GMMSelector_args -> Numpy.matrix T -> outcome (list bool))
    (mask_length : Specialized.GMMSelector_mask_length GMMSelector_fit)
    (self : Specialized.config) (X : Numpy.matrix T) (f : Specialized.fitted)
    (Hfit : Specialized.fit GMMSelector_fit self X = Ret f) :
  length (Specialized._get_support_mask f) = Numpy.n_cols X
  /\ length (Specialized.gmm_selected_ (Specialized.abundance_selector_ f)) = Numpy.n_cols X
  /\ length (Specialized.gmm_selected_ (Specialized.variance_selector_ f))
     = Numpy.count_true (Specialized.gmm_selected_ (Specialized.abundance_selector_ f)).
Proof.
  destruct (fit_masks GMMSelector_fit mask_length self X f Hfit) as (Hla & Hlv & Hsel).
  unfold Specialized._get_support_mask. simpl in *.
  rewrite Hsel, length_scatter. auto.
Qed.

(** C9. A successful [fit] has fitted a GMMSelector built with ['mean'],
    [preserve_high=True] and [n_candidates=1] on [X], has applied it to [X],
    and has fitted a GMMSelector built with ['var'] and [n_candidates=None]
    on the filtered matrix; both are built with the [use_log] and
    [max_components] of the selector, whatever its configuration. *)
Theorem C9_two_stages {T : Type}
    (GMMSelector_fit : Specialized.GMMSelector_args -> Numpy.matrix T -> outcome (list bool))
    (self : Specialized.config) (X : Numpy.matrix T) (f : Specialized.fitted)
    (Hfit : Specialized.fit GMMSelector_fit self X = Ret f) :
  let abundance := Specialized.abundance_selector_ f in
  let variance := Specialized.variance_selector_ f in
  exists filtered : Numpy.matrix T,
    GMMSelector_fit (Specialized.args abundance) X
      = Ret (Specialized.gmm_selected_ abundance)
    /\ Specialized.transform (Specialized.gmm_selected_ abundance) X = Ret filtered
    /\ GMMSelector_fit (Specialized.args variance) filtered
       = Ret (Specialized.gmm_selected_ variance)
    /\ Specialized.stat (Specialized.args abundance) = "mean"%string
    /\ Specialized.preserve_high (Specialized.args abundance) = true
    /\ Specialized.n_candidates (Specialized.args abundance) = Some 1
    /\ Specialized.stat (Specialized.args variance) = "var"%string
    /\ Specialized.n_candidates (Specialized.args variance) = None
    /\ Specialized.use_log (Specialized.args abundance) = Specialized.cfg_use_log self
    /\ Specialized.use_log (Specialized.args variance) = Specialized.cfg_use_log self
    /\ Specialized.max_components (Specialized.args abundance)
       = Specialized.cfg_max_components self
    /\ Specialized.max_components (Specialized.args variance)
       = Specialized.cfg_max_components self.
Proof.
  destruct (fit_inv GMMSelector_fit self X f Hfit)
    as (a & filtered & v & sel & Ha & Ht & Hv & Hs & ->).
  simpl. exists filtered. repeat split; assumption.
Qed.

Lemma sample_GMMSelector_mask_length :
  Specialized.GMMSelector_mask_length Specialized.sample_GMMSelector_fit.
Proof.
  intros a X mask. unfold Specialized.sample_GMMSelector_fit.
  destruct (Nat.eqb (Numpy.n_cols X) 0); [discriminate|].
  intros [= <-]. by rewrite length_map, length_seq.
Qed.

Lemma C1_selected_is_scattered_conjunction_witness :
  exists f : Specialized.fitted,
    Specialized.fit Specialized.sample_GMMSelector_fit
                    Specialized.default_config Specialized.sample_X = Ret f
    /\ Specialized.gmm_selected_ (Specialized.abundance_selector_ f)
       = [true; true; false; true]
    /\ Specialized.gmm_selected_ (Specialized.variance_selector_ f)
       = [false; true; false]
    /\ Specialized.selected_ f = [false; true; false; false]
    /\ Numpy.count_true (Specialized.selected_ f)
       = Numpy.count_true (Specialized.gmm_selected_ (Specialized.variance_selector_ f)).
Proof.
  eexists. split; [vm_compute; reflexivity|].
  split; [reflexivity|]. split; [reflexivity|]. split; [reflexivity|].
  apply (C1_selected_is_scattered_conjunction
           Specialized.sample_GMMSelector_fit sample_GMMSelector_mask_length
           Specialized.default_config Specialized.sample_X).
  vm_compute. reflexivity.
Defined.

Lemma C7_mask_length_witness :
  exists f : Specialized.fitted,
    Specialized.fit Specialized.sample_GMMSelector_fit
                    Specialized.default_config Specialized.sample_X = Ret f
    /\ length (Specialized._get_support_mask f) = 4%nat
    /\ length (Specialized.gmm_selected_ (Specialized.variance_selector_ f)) = 3%nat.
Proof.
  eexists. split; [vm_compute; reflexivity|].
  pose proof (C7_mask_length
                Specialized.sample_GMMSelector_fit sample_GMMSelector_mask_length
                Specialized.default_config Specialized.sample_X _ eq_refl)
    as (H1 & _ & H3).
  split; [exact H1 | exact H3].
Defined.

Lemma C9_two_stages_witness :
  exists f : Specialized.fitted,
    Specialized.fit Specialized.sample_GMMSelector_fit
                    Specialized.default_config Specialized.sample_X = Ret f
    /\ Specialized.n_candidates (Specialized.args (Specialized.abundance_selector_ f)) = Some 1
    /\ Specialized.n_candidates (Specialized.args (Specialized.variance_selector_ f)) = None.
Proof.
  eexists. split; [vm_compute; reflexivity|].
  destruct (C9_two_stages Specialized.sample_GMMSelector_fit
              Specialized.default_config Specialized.sample_X _ eq_refl)
    as (filtered & _ & _ & _ & _ & _ & H1 & _ & H2 & _).
  split; [exact H1 | exact H2].
Defined.

(** ** The minimum retained feature count *)

Section MinimumFacts.
Import Numpy Specialized.

Lemma Qle_bool_ceiling (x : Q) (c : Z) :
  Qle_bool x (inject_Z c) = (Qceiling x <=? c)%Z.
Proof.
  apply eq_true_iff_eq. rewrite Qle_bool_iff, Z.leb_le. split; intros H.
  - rewrite <- (Qceiling_Z c). by apply Qceiling_resp_le.
  - apply Qle_trans with (inject_Z (Qceiling x)); [apply Qle_ceiling|].
    by rewrite <- Zle_Qle.
Qed.

Lemma Qle_bool_py_max (a b x : Q) :
  Qle_bool (py_max a b) x = Qle_bool a x && Qle_bool b x.
Proof.
  apply eq_true_iff_eq. rewrite andb_true_iff, !Qle_bool_iff.
  unfold py_max. destruct (Qle_bool b a) eqn:E.
  - apply Qle_bool_iff in E. split; [|tauto].
    intros H. split; [exact H | by apply Qle_trans with a].
  - assert (Hlt : (a <= b)%Q).
    { destruct (Qlt_le_dec a b) as [Hl|Hl]; [by apply Qlt_le_weak|].
      apply Qle_bool_iff in Hl. congruence. }
    split; [|tauto].
    intros H. split; [by apply Qle_trans with b | exact H].
Qed.

(** Under the default rate, a stage that is given [min_features = m]
    asks for at least [ceil(m)] columns. *)
Lemma meets_minimum_ceiling (g : GMMSelector_args) (w c : nat) :
  meets_minimum g w c = (Qceiling (min_features g) <=? Z.of_nat c)%Z.
Proof.
  unfold meets_minimum.
  rewrite Qle_bool_py_max, !Qle_bool_ceiling, Qceiling_Z.
  rewrite (Qceiling_comp (0 * inject_Z (Z.of_nat w))%Q 0%Q) by apply Qmult_0_l.
  change (Qceiling 0) with 0%Z.
  rewrite (proj2 (Z.leb_le 0 (Z.of_nat c))) by lia.
  apply andb_true_r.
Qed.

Lemma stage_min_features_ceiling {T} (self : config) (X : matrix T) :
  Qceiling (stage_min_features self X) = claimed_minimum self (n_cols X).
Proof.
  unfold stage_min_features, claimed_minimum, py_max.
  set (r := (cfg_min_features_rate self * inject_Z (Z.of_nat (n_cols X)))%Q).
  destruct (Qle_bool r (inject_Z (cfg_min_features self))) eqn:E.
  - rewrite Qceiling_Z. rewrite Qle_bool_ceiling in E.
    apply Z.leb_le in E. lia.
  - rewrite Qle_bool_ceiling in E. apply Z.leb_gt in E. lia.
Qed.
End MinimumFacts.

(** C2, as the code has it.  Both stages are built with the same
    [min_features], namely [max(min_features, min_features_rate * w)] for
    [w] the column count of the matrix [X] given to [fit]; no rate is handed
    on.  Each stage therefore asks for at least
    [max(min_features, ceil(min_features_rate * w))] columns with that same
    [w]: the variance stage too is measured against the width of [X], not
    against the width of the filtered matrix it is fit on. *)
Theorem C2_stage_minimum_from_input_width {T : Type}
    (GMMSelector_fit : Specialized.GMMSelector_args -> Numpy.matrix T -> outcome (list bool))
    (self : Specialized.config) (X : Numpy.matrix T) (f : Specialized.fitted)
    (Hfit : Specialized.fit GMMSelector_fit self X = Ret f) :
  let m := Specialized.py_max
             (inject_Z (Specialized.cfg_min_features self))
             (Specialized.cfg_min_features_rate self
              * inject_Z (Z.of_nat (Numpy.n_cols X)))%Q in
  Specialized.min_features (Specialized.args (Specialized.abundance_selector_ f)) = m
  /\ Specialized.min_features (Specialized.args (Specialized.variance_selector_ f)) = m
  /\ (forall w c : nat,
        Specialized.meets_minimum
          (Specialized.args (Specialized.abundance_selector_ f)) w c
        = (Specialized.claimed_minimum self (Numpy.n_cols X) <=? Z.of_nat c)%Z)
  /\ (forall w c : nat,
        Specialized.meets_minimum
          (Specialized.args (Specialized.variance_selector_ f)) w c
        = (Specialized.claimed_minimum self (Numpy.n_cols X) <=? Z.of_nat c)%Z).
Proof.
  destruct (fit_inv GMMSelector_fit self X f Hfit)
    as (a & filtered & v & sel & Ha & Ht & Hv & Hs & ->).
  simpl. split; [reflexivity|]. split; [reflexivity|].
  split; intros w c; rewrite meets_minimum_ceiling; simpl;
    by rewrite stage_min_features_ceiling.
Qed.

Lemma C2_stage_minimum_from_input_width_witness :
  exists f : Specialized.fitted,
    Specialized.fit Specialized.sample_GMMSelector_fit
                    (Specialized.Config false 1 (1 # 2) 10) Specialized.sample_X' = Ret f
    /\ Specialized.min_features (Specialized.args (Specialized.variance_selector_ f))
       = Specialized.py_max (inject_Z 1) ((1 # 2) * inject_Z 4)%Q
    /\ Specialized.meets_minimum
         (Specialized.args (Specialized.variance_selector_ f)) 2 1 = false.
Proof.
  eexists. split; [vm_compute; reflexivity|].
  destruct (C2_stage_minimum_from_input_width Specialized.sample_GMMSelector_fit
              (Specialized.Config false 1 (1 # 2) 10) Specialized.sample_X' _ eq_refl)
    as (_ & H2 & _ & H4).
  split; [exact H2 | exact (H4 2%nat 1%nat)].
Defined.

(** C2, as the claim has it, fails on the variance stage.  With
    [min_features=1] and [min_features_rate=0.5] on a matrix of four columns
    of which the abundance stage keeps two, the claim puts the minimum of the
    variance stage at [max(1, ceil(0.5 * 2)) = 1], so that one retained
    column would do; the stage was built with [min_features = 2] and one
    retained column does not meet it. *)
Lemma C2_variance_stage_counterexample :
  ~ (forall (GMMSelector_fit : Specialized.GMMSelector_args -> Numpy.matrix Z
                               -> outcome (list bool))
            (self : Specialized.config) (X : Numpy.matrix Z) (f : Specialized.fitted),
        Specialized.fit GMMSelector_fit self X = Ret f ->
        forall c : nat,
          let w := Numpy.count_true
                     (Specialized.gmm_selected_ (Specialized.abundance_selector_ f)) in
          Specialized.meets_minimum
            (Specialized.args (Specialized.variance_selector_ f)) w c
          = (Specialized.claimed_minimum self w <=? Z.of_nat c)%Z).
Proof.
  intros H.
  specialize (H Specialized.sample_GMMSelector_fit
                (Specialized.Config false 1 (1 # 2) 10) Specialized.sample_X' _
                eq_refl 1%nat).
  vm_compute in H. discriminate.
Qed.

(** ** Characteristics and thresholds *)

Section CharacteristicFacts.
Import Numpy StatSelectorMixin.

Lemma np_lt0_Fin (r : R) : np_lt0 (Fin r) = true <-> (r < 0)%R.
Proof. simpl. destruct (Rlt_dec r 0); split; (congruence || tauto). Qed.

Lemma np_log_positive (r : R) : (0 < r)%R -> np_log (Fin r) = Fin (ln r).
Proof. intros H. simpl. destruct (Rlt_dec 0 r); [reflexivity | tauto]. Qed.

Lemma np_log_zero : np_log (Fin 0) = NegInf.
Proof.
  simpl. destruct (Rlt_dec 0 0) as [H|_]; [lra|].
  destruct (Req_dec_T 0 0); [reflexivity | congruence].
Qed.

(** Whenever [_to_characteristics] returns, it has applied the transform
    of one value to every value. *)
Lemma normalize_elementwise (self : self_) (vals out : list npfloat) :
  normalize self vals = Ret out ->
  out = List.map (to_characteristic_space self) vals.
Proof.
  unfold normalize, to_characteristic_space.
  destruct (has_and (use_log self)).
  - destruct (existsb np_lt0 vals); [discriminate|].
    intros [= <-]. destruct (has_and_not (preserve_high self)).
    + by rewrite List.map_map.
    + reflexivity.
  - intros [= <-]. destruct (has_and_not (preserve_high self)); simpl.
    + reflexivity.
    + by rewrite List.map_id.
Qed.

(** The guard of [use_log]: a negative value is refused. *)
Lemma normalize_negative (self : self_) (vals : list npfloat) (v : npfloat) :
  has_and (use_log self) = true -> In v vals -> np_lt0 v = true ->
  normalize self vals
  = Raise (ValueError "Feature characteristic cannot be negative with log filtering").
Proof.
  intros Hlog Hin Hneg. unfold normalize. rewrite Hlog.
  assert (E : existsb np_lt0 vals = true).
  { apply existsb_exists. by exists v. }
  by rewrite E.
Qed.

(** Strictly positive values pass the guard, and their logarithms are
    returned. *)
Lemma normalize_positive (self : self_) (rs : list R) :
  has_and (use_log self) = true -> has_and_not (preserve_high self) = false ->
  Forall (fun r => 0 < r)%R rs ->
  normalize self (List.map Fin rs) = Ret (List.map (fun r => Fin (ln r)) rs).
Proof.
  intros Hlog Hhigh Hpos. unfold normalize. rewrite Hlog, Hhigh.
  assert (E : existsb np_lt0 (List.map Fin rs) = false).
  { induction Hpos as [|r rs Hr _ IH]; [reflexivity|].
    simpl. destruct (Rlt_dec r 0); [lra | exact IH]. }
  rewrite E. f_equal. rewrite List.map_map. clear E.
  induction Hpos as [|r rs Hr _ IH]; [reflexivity|].
  cbn [List.map]. rewrite (np_log_positive r Hr). f_equal. exact IH.
Qed.

Lemma var1_constant_pair : var1 [1; 1]%R = Fin 0.
Proof. unfold var1, Rsum. simpl. f_equal. field. Qed.
End CharacteristicFacts.

(** C3. A column of zero variance goes through the guard of [use_log]: on
    the two-row, one-column matrix whose entries are both 1, with ['var']
    and [use_log=True], [_to_characteristics] raises nothing and returns
    [-inf], the logarithm NumPy gives for 0. *)
Theorem C3_zero_characteristic_not_refused :
  StatSelectorMixin._to_characteristics
    (StatSelectorMixin.Self "var" (Some true) (Some true))
    (Numpy.Matrix 1 [[1%R]; [1%R]])
  = Ret [Numpy.NegInf].
Proof.
  unfold StatSelectorMixin._to_characteristics.
  cbn [StatSelectorMixin.stat].
  change (String.eqb "var" "mean") with false.
  change (String.eqb "var" "var") with true.
  cbv iota.
  change (Numpy.np_var_axis0 (Numpy.Matrix 1 [[1%R]; [1%R]]))
    with [Numpy.var1 [1; 1]%R].
  rewrite var1_constant_pair.
  unfold StatSelectorMixin.normalize.
  cbn [StatSelectorMixin.use_log StatSelectorMixin.preserve_high
       StatSelectorMixin.has_and StatSelectorMixin.has_and_not negb
       existsb List.map orb].
  rewrite np_log_zero.
  assert (E : Numpy.np_lt0 (Numpy.Fin 0) = false).
  { simpl. destruct (Rlt_dec 0 0) as [H|_]; [lra | reflexivity]. }
  rewrite E. reflexivity.
Qed.

(** C4. Taking a threshold to the characteristic space (logarithm under
    [use_log], then negation unless [preserve_high]) and back with [_to_raw]
    (negation first, then exponential) gives the threshold again, for the
    four combinations of the two switches and also for an object that lacks
    them; under [use_log] the threshold is positive. *)
Theorem C4_threshold_round_trip (self : StatSelectorMixin.self_) (t : R)
    (Hpos : StatSelectorMixin.has_and (StatSelectorMixin.use_log self) = true -> (0 < t)%R) :
  StatSelectorMixin._to_raw self
    (StatSelectorMixin.to_characteristic_space self (Numpy.Fin t))
  = Numpy.Fin t.
Proof.
  unfold StatSelectorMixin._to_raw, StatSelectorMixin.to_characteristic_space.
  destruct (StatSelectorMixin.has_and (StatSelectorMixin.use_log self)) eqn:Elog.
  - specialize (Hpos eq_refl). rewrite (np_log_positive t Hpos).
    destruct (StatSelectorMixin.has_and_not (StatSelectorMixin.preserve_high self));
      simpl; rewrite ?Ropp_involutive, exp_ln; auto.
  - destruct (StatSelectorMixin.has_and_not (StatSelectorMixin.preserve_high self));
      simpl; rewrite ?Ropp_involutive; reflexivity.
Qed.

Lemma C4_threshold_round_trip_witness :
  StatSelectorMixin._to_raw
    (StatSelectorMixin.Self "mean" (Some true) (Some false))
    (StatSelectorMixin.to_characteristic_space
       (StatSelectorMixin.Self "mean" (Some true) (Some false)) (Numpy.Fin 2))
  = Numpy.Fin 2.
Proof.
  apply (C4_threshold_round_trip
           (StatSelectorMixin.Self "mean" (Some true) (Some false)) 2%R).
  intros _. lra.
Defined.

(** Runs of the seeded wrapper on the sample generator: a function that
    draws one number and adds its first positional argument. *)
Lemma C8_seeded_reproducible_witness :
  fst (Random.seeded Random.sample_init_by_seed false Random.sample_draw_plus
         [PyInt 5] {[ "seed"%string := PyInt 3 ]} 7)
  = fst (Random.seeded Random.sample_init_by_seed false Random.sample_draw_plus
           [PyInt 5] {[ "seed"%string := PyInt 3 ]} 99)
  /\ exists kwargs' : gmap string pyval,
       forall st : Z,
         fst (Random.seeded Random.sample_init_by_seed false Random.sample_draw_plus
                [PyInt 5] {[ "seed"%string := PyInt 3 ]} st)
         = fst (Random.sample_draw_plus [PyInt 5] kwargs' (Random.sample_init_by_seed 3)).
Proof.
  destruct (C8_seeded_reproducible Random.sample_init_by_seed false
              Random.sample_draw_plus [PyInt 5] {[ "seed"%string := PyInt 3 ]})
    as [Hsame Hrun].
  split; [apply Hsame | apply (Hrun 3); reflexivity].
Defined.

Lemma C10_seeded_keyword_witness :
  Random.seeded Random.sample_init_by_seed true Random.sample_draw_plus
    [PyInt 5] {[ "n"%string := PyInt 1 ]}
  = Random.seed Random.sample_init_by_seed (PyInt 0)
      (Random.sample_draw_plus [PyInt 5] {[ "n"%string := PyInt 1 ]}).
Proof.
  apply (C10_seeded_keyword Random.sample_init_by_seed Random.sample_draw_plus
           [PyInt 5] {[ "n"%string := PyInt 1 ]}).
  reflexivity.
Defined.


(** * Further properties of [divik/core.py] *)

(** ** Resolving the job count *)

(** X1. On a machine that reports its processor count (or none at all),
    the resolved job count is never 0: a pool yielded as [DummyPool] always
    carries the job count 1. *)
Theorem X1_get_n_jobs_never_zero (cpu_count processes : option Z)
    (Hcpu : forall c, cpu_count = Some c -> 0 <= c) :
  Parallel.get_n_jobs cpu_count processes <> 0
  /\ forall k, Parallel.maybe_pool cpu_count processes = Ret (Parallel.DummyPool k) -> k = 1.
Proof.
  assert (Hnz : Parallel.get_n_jobs cpu_count processes <> 0).
  { unfold Parallel.get_n_jobs.
    destruct cpu_count as [c|]; [specialize (Hcpu c eq_refl)|];
      destruct processes as [n|];
      repeat match goal with
             | |- context [?a <=? ?b] => destruct (Z.leb_spec a b)
             | |- context [?a =? ?b] => destruct (Z.eqb_spec a b)
             end; lia. }
  split; [exact Hnz|].
  intros k. unfold Parallel.maybe_pool, Parallel.Pool_init.
  destruct (Z.eqb_spec (Parallel.get_n_jobs cpu_count processes) 1) as [E1|E1]; simpl.
  - intros [= <-]. exact E1.
  - destruct (Z.eqb_spec (Parallel.get_n_jobs cpu_count processes) 0) as [E0|E0];
      [contradiction|].
    destruct (Parallel.get_n_jobs cpu_count processes <? 1); discriminate.
Qed.

Lemma X1_get_n_jobs_never_zero_witness :
  Parallel.get_n_jobs (Some 4) (Some (-5)) <> 0.
Proof.
  apply (X1_get_n_jobs_never_zero (Some 4) (Some (-5))).
  intros c [= <-]. lia.
Defined.

(** X2. A positive request is taken as it is, whatever the machine.  A
    request of [-k] with [1 <= k <= n_cpu] counts down from the processor
    count: [-1] is all processors, [-2] all but one, and [-n_cpu] a single
    one.  A request of [0] is all processors. *)
Theorem X2_get_n_jobs_counts_down (n_cpu n_jobs : Z) (Hcpu : 1 <= n_cpu) :
  (1 <= n_jobs -> Parallel.get_n_jobs (Some n_cpu) (Some n_jobs) = n_jobs)
  /\ (- n_cpu <= n_jobs <= -1 ->
      Parallel.get_n_jobs (Some n_cpu) (Some n_jobs) = n_cpu + 1 + n_jobs
      /\ 1 <= Parallel.get_n_jobs (Some n_cpu) (Some n_jobs) <= n_cpu)
  /\ (n_jobs = 0 -> Parallel.get_n_jobs (Some n_cpu) (Some n_jobs) = n_cpu).
Proof.
  unfold Parallel.get_n_jobs.
  split; [|split]; intros Hreq;
    repeat match goal with
           | |- context [?a <=? ?b] => destruct (Z.leb_spec a b)
           | |- context [?a =? ?b] => destruct (Z.eqb_spec a b)
           end; lia.
Qed.

Lemma X2_get_n_jobs_counts_down_witness :
  Parallel.get_n_jobs (Some 8) (Some (-2)) = 8 + 1 + -2
  /\ 1 <= Parallel.get_n_jobs (Some 8) (Some (-2)) <= 8.
Proof.
  apply (X2_get_n_jobs_counts_down 8 (-2)); lia.
Defined.

(** X3. Counting down past the processor count is not clamped.  The
    request [-(n_cpu + 1)] resolves to 0 and from there to all processors;
    any request below it resolves to a negative count, and [maybe_pool]
    then fails with the [ValueError] of the process pool instead of
    yielding a pool. *)
Theorem X3_get_n_jobs_below_range (n_cpu n_jobs : Z) (Hcpu : 1 <= n_cpu) :
  Parallel.get_n_jobs (Some n_cpu) (Some (- (n_cpu + 1))) = n_cpu
  /\ (n_jobs < - (n_cpu + 1) ->
      Parallel.get_n_jobs (Some n_cpu) (Some n_jobs) = n_cpu + 1 + n_jobs
      /\ Parallel.get_n_jobs (Some n_cpu) (Some n_jobs) < 0
      /\ Parallel.maybe_pool (Some n_cpu) (Some n_jobs)
         = Raise (ValueError "Number of processes must be at least 1")).
Proof.
  split.
  - unfold Parallel.get_n_jobs.
    repeat match goal with
           | |- context [?a <=? ?b] => destruct (Z.leb_spec a b)
           | |- context [?a =? ?b] => destruct (Z.eqb_spec a b)
           end; lia.
  - intros Hlow.
    assert (E : Parallel.get_n_jobs (Some n_cpu) (Some n_jobs) = n_cpu + 1 + n_jobs).
    { unfold Parallel.get_n_jobs.
      repeat match goal with
             | |- context [?a <=? ?b] => destruct (Z.leb_spec a b)
             | |- context [?a =? ?b] => destruct (Z.eqb_spec a b)
             end; lia. }
    split; [exact E|]. split; [lia|].
    unfold Parallel.maybe_pool, Parallel.Pool_init. rewrite E.
    repeat match goal with
           | |- context [?a =? ?b] => destruct (Z.eqb_spec a b)
           | |- context [?a <? ?b] => destruct (Z.ltb_spec a b)
           end; simpl; (reflexivity || lia).
Qed.

Lemma X3_get_n_jobs_below_range_witness :
  Parallel.get_n_jobs (Some 4) (Some (-5)) = 4
  /\ Parallel.maybe_pool (Some 4) (Some (-7))
     = Raise (ValueError "Number of processes must be at least 1").
Proof.
  destruct (X3_get_n_jobs_below_range 4 (-7) ltac:(lia)) as [Hwrap Hlow].
  split; [exact Hwrap|].
  destruct (Hlow ltac:(lia)) as (_ & _ & Hraise). exact Hraise.
Defined.

(** ** The in-process pool *)

Section SequentialFacts.
Context {S A R : Type}.

Lemma sequential_length (f : A -> Py S R) (xs : list A) :
  forall (s s' : S) (ys : list R),
    Parallel.sequential f xs s = (Ret ys, s') -> length ys = length xs.
Proof.
  induction xs as [|x xs IH]; intros s s' ys; simpl.
  - by intros [= <- _].
  - unfold bind at 1. destruct (f x s) as [[y|e] s1]; [|discriminate].
    unfold bind. destruct (Parallel.sequential f xs s1) as [[zs|e] s2] eqn:E;
      [|discriminate].
    intros [= <- _]. simpl. f_equal. exact (IH s1 s2 zs E).
Qed.

Lemma sequential_app (f : A -> Py S R) (xs ys : list A) :
  forall s : S,
    Parallel.sequential f (xs ++ ys) s
    = (do a <- Parallel.sequential f xs;
       do b <- Parallel.sequential f ys;
       ret (a ++ b)) s.
Proof.
  induction xs as [|x xs IH]; intros s.
  - simpl. unfold bind, ret.
    destruct (Parallel.sequential f ys s) as [[b|e] s']; reflexivity.
  - cbn [app Parallel.sequential]. rewrite bind_assoc. apply bind_ext. intros y s1.
    rewrite bind_assoc. unfold bind at 1. rewrite IH.
    unfold bind, ret. destruct (Parallel.sequential f xs s1) as [[a|e] s2];
      [|reflexivity].
    destruct (Parallel.sequential f ys s2) as [[b|e] s3]; reflexivity.
Qed.
End SequentialFacts.

(** X4. When [DummyPool.map] returns, it returns one result per element of
    the iterable; so does [starmap]. *)
Theorem X4_dummy_pool_map_length {S R : Type} (func : pyfun S R)
    (iterable : list pyval) (tuples : list (list pyval))
    (chunksize : option Z) (s s' : S) (results : list R) :
  (Parallel.DummyPool_map func iterable chunksize s = (Ret results, s') ->
   length results = length iterable)
  /\ (Parallel.DummyPool_starmap func tuples chunksize s = (Ret results, s') ->
      length results = length tuples).
Proof.
  unfold Parallel.DummyPool_map, Parallel.DummyPool_starmap.
  rewrite !list_comprehension_sequential.
  split; apply sequential_length.
Qed.

Lemma X4_dummy_pool_map_length_witness :
  length [12350; 12351] = length [PyInt 5; PyInt 6].
Proof.
  apply (X4_dummy_pool_map_length (S := Z) (R := Z)
           (fun a _ => fun s => (Ret (12345 + match a with [PyInt z] => z | _ => 0 end), s))
           [PyInt 5; PyInt 6] [] None 0 0 [12350; 12351]).
  reflexivity.
Defined.

(** X5. [DummyPool.map] stops at the first element on which the function
    raises: the exception is the one of that call, the state is the one
    that call left, and the elements after it are never evaluated (what
    they are does not matter). *)
Theorem X5_dummy_pool_map_first_exception {S R : Type} (func : pyfun S R)
    (before : list pyval) (x : pyval) (after : list pyval) (chunksize : option Z)
    (s s1 s2 : S) (results : list R) (e : exn)
    (Hbefore : Parallel.DummyPool_map func before chunksize s = (Ret results, s1))
    (Hraise : func [x] ∅ s1 = (Raise e, s2)) :
  Parallel.DummyPool_map func (before ++ x :: after) chunksize s = (Raise e, s2).
Proof.
  unfold Parallel.DummyPool_map in *.
  rewrite list_comprehension_sequential in *.
  rewrite sequential_app. unfold bind at 1. rewrite Hbefore.
  cbn [Parallel.sequential]. unfold bind at 1 2. rewrite Hraise. reflexivity.
Qed.

Lemma X5_dummy_pool_map_first_exception_witness :
  Parallel.DummyPool_map (S := Z) (R := Z)
    (fun a _ => fun s =>
       match a with
       | [PyInt z] => (Ret z, s + 1)
       | _ => (Raise (TypeError "not a number"), s + 100)
       end)
    ([PyInt 1; PyInt 2] ++ PyStr "three" :: [PyInt 4]) None 0
  = (Raise (TypeError "not a number"), 102).
Proof.
  apply (X5_dummy_pool_map_first_exception (S := Z) (R := Z) _
           [PyInt 1; PyInt 2] (PyStr "three") [PyInt 4] None 0 2 102 [1; 2]);
    reflexivity.
Defined.

(** X6. [starmap] over one-element argument tuples is [map] over the
    elements. *)
Theorem X6_starmap_of_singletons {S R : Type} (func : pyfun S R)
    (iterable : list pyval) (chunksize chunksize' : option Z) (s : S) :
  Parallel.DummyPool_starmap func (List.map (fun v => [v]) iterable) chunksize s
  = Parallel.DummyPool_map func iterable chunksize' s.
Proof.
  unfold Parallel.DummyPool_map, Parallel.DummyPool_starmap.
  generalize (@nil R) as acc. revert s.
  induction iterable as [|v rest IH]; intros s acc; [reflexivity|].
  simpl. apply bind_ext. intros y s1. apply IH.
Qed.

(** X7. Mapping over two lists joined is mapping over the first and then,
    from the state this leaves, over the second: the results are joined in
    that order, and a failure in the first part keeps the second from
    running. *)
Theorem X7_dummy_pool_map_app {S R : Type} (func : pyfun S R)
    (xs ys : list pyval) (chunksize : option Z) (s : S) :
  Parallel.DummyPool_map func (xs ++ ys) chunksize s
  = match Parallel.DummyPool_map func xs chunksize s with
    | (Ret a, s1) =>
        match Parallel.DummyPool_map func ys chunksize s1 with
        | (Ret b, s2) => (Ret (a ++ b), s2)
        | (Raise e, s2) => (Raise e, s2)
        end
    | (Raise e, s1) => (Raise e, s1)
    end.
Proof.
  unfold Parallel.DummyPool_map.
  rewrite !list_comprehension_sequential, sequential_app.
  unfold bind at 1.
  destruct (Parallel.sequential (fun v => func [v] ∅) xs s) as [[a|e] s1];
    [|reflexivity].
  rewrite list_comprehension_sequential. unfold bind, ret.
  destruct (Parallel.sequential (fun v => func [v] ∅) ys s1) as [[b|e] s2];
    reflexivity.
Qed.

(** ** Seeded scopes on the paths that return *)

(** X8. Whenever a call of a function wrapped by [seeded] returns, the
    global generator is back in the state it had before the call, the seed
    was a valid one, and the value returned is the one the wrapped function
    computes from the generator state of that seed. *)
Theorem X8_seeded_return_restores {RngState R : Type} (init_by_seed : Z -> RngState)
    (wrapped_requires_seed : bool) (func : pyfun RngState R)
    (args : list pyval) (kwargs : gmap string pyval)
    (st st' : RngState) (r : R)
    (Hret : Random.seeded init_by_seed wrapped_requires_seed func args kwargs st
            = (Ret r, st')) :
  st' = st
  /\ exists z : Z,
       Random.operator_index (default (PyInt 0) (kwargs !! "seed"%string)) = Some z
       /\ Random.valid_seed z = true
       /\ fst (func args
                    (if wrapped_requires_seed then kwargs else delete "seed"%string kwargs)
                    (init_by_seed z)) = Ret r.
Proof.
  assert (Hscope : forall (v : pyval) (block : Py RngState R),
             Random.seed init_by_seed v block st = (Ret r, st') ->
             st' = st
             /\ exists z, Random.operator_index v = Some z
                          /\ Random.valid_seed z = true
                          /\ fst (block (init_by_seed z)) = Ret r).
  { intros v block.
    unfold Random.seed, Random.with_generator, bind, Random.np_random_get_state,
           Random.np_random_seed, Random.np_random_set_state, raise, ret.
    destruct (Random.operator_index v) as [z|]; [|discriminate].
    destruct (Random.valid_seed z) eqn:Ez; [|discriminate].
    destruct (block (init_by_seed z)) as [[a|e] s1] eqn:Eb; [|discriminate].
    intros [= <- <-]. split; [reflexivity|]. exists z. by rewrite Eb. }
  revert Hret. unfold Random.seeded.
  destruct wrapped_requires_seed; simpl; apply Hscope.
Qed.

Lemma X8_seeded_return_restores_witness :
  (7 : Z) = 7
  /\ exists z : Z,
       Random.operator_index
         (default (PyInt 0)
                  (({[ "seed"%string := PyInt 0 ]} : gmap string pyval) !! "seed"%string))
       = Some z
       /\ Random.valid_seed z = true
       /\ fst (Random.sample_draw_plus [PyInt 5]
                 (delete "seed"%string {[ "seed"%string := PyInt 0 ]})
                 (Random.sample_init_by_seed z)) = Ret 12350.
Proof.
  apply (X8_seeded_return_restores Random.sample_init_by_seed false
           Random.sample_draw_plus [PyInt 5] {[ "seed"%string := PyInt 0 ]} 7 7 12350).
  reflexivity.
Defined.

(** X9. A seed that NumPy refuses (an integer outside [0, 2**32 - 1], or
    an object that is no integer) makes the scope fail on entry: the block
    is not run and the generator is left untouched. *)
Theorem X9_seed_refused_on_entry {RngState A : Type} (init_by_seed : Z -> RngState)
    (seed_ : pyval) (block : Py RngState A) (st : RngState)
    (Hbad : match Random.operator_index seed_ with
            | Some z => Random.valid_seed z = false
            | None => True
            end) :
  exists e : exn,
    Random.seed init_by_seed seed_ block st = (Raise e, st)
    /\ forall block' : Py RngState A,
         Random.seed init_by_seed seed_ block' st = (Raise e, st).
Proof.
  unfold Random.seed, Random.with_generator, bind, Random.np_random_get_state,
         Random.np_random_seed, raise.
  destruct (Random.operator_index seed_) as [z|].
  - rewrite Hbad. eexists. split; [reflexivity | intros; reflexivity].
  - eexists. split; [reflexivity | intros; reflexivity].
Qed.

Lemma X9_seed_refused_on_entry_witness :
  exists e : exn,
    Random.seed Random.sample_init_by_seed (PyInt (2 ^ 32)) Random.sample_draw 7
    = (Raise e, 7)
    /\ forall block' : Py Z Z,
         Random.seed Random.sample_init_by_seed (PyInt (2 ^ 32)) block' 7 = (Raise e, 7).
Proof.
  apply (X9_seed_refused_on_entry Random.sample_init_by_seed (PyInt (2 ^ 32))
           Random.sample_draw 7).
  reflexivity.
Defined.

(** X10. Wrapping a function twice with [seeded()] makes the seed keyword
    without effect: the outer wrapper takes ["seed"] out of the keyword
    arguments, so that the inner one finds none and seeds with 0.  For a
    valid seed the doubly wrapped call is the singly wrapped call made
    without the keyword. *)
Theorem X10_seeded_twice_ignores_seed {RngState R : Type} (init_by_seed : Z -> RngState)
    (func : pyfun RngState R) (args : list pyval) (kwargs : gmap string pyval)
    (st : RngState) (z : Z)
    (Hseed : Random.operator_index (default (PyInt 0) (kwargs !! "seed"%string)) = Some z)
    (Hvalid : Random.valid_seed z = true) :
  Random.seeded init_by_seed false (Random.seeded init_by_seed false func) args kwargs st
  = Random.seeded init_by_seed false func args (delete "seed"%string kwargs) st
  /\ Random.seeded init_by_seed false func args (delete "seed"%string kwargs) st
     = Random.seed init_by_seed (PyInt 0)
         (func args (delete "seed"%string kwargs)) st.
Proof.
  assert (Hin : forall s,
             Random.seeded init_by_seed false func args (delete "seed"%string kwargs) s
             = Random.seed init_by_seed (PyInt 0)
                 (func args (delete "seed"%string kwargs)) s).
  { intros s. unfold Random.seeded, Random.dict_pop.
    rewrite lookup_delete_eq. simpl. by rewrite delete_delete_eq. }
  split; [|apply Hin].
  rewrite Hin.
  unfold Random.seeded at 1. unfold Random.dict_pop.
  unfold Random.seed at 1.
  unfold Random.with_generator, bind at 1 2, Random.np_random_get_state.
  unfold Random.np_random_seed at 1. rewrite Hseed, Hvalid.
  unfold bind at 1. cbn [ret].
  rewrite Hin.
  unfold Random.seed, Random.with_generator, bind, Random.np_random_get_state,
         Random.np_random_seed, Random.np_random_set_state, ret. simpl.
  destruct (func args (delete "seed"%string kwargs) (init_by_seed 0)) as [[r|e] s1];
    reflexivity.
Qed.

Lemma X10_seeded_twice_ignores_seed_witness :
  Random.seeded Random.sample_init_by_seed false
    (Random.seeded Random.sample_init_by_seed false Random.sample_draw_plus)
    [PyInt 5] {[ "seed"%string := PyInt 3 ]} 7
  = Random.seeded Random.sample_init_by_seed false Random.sample_draw_plus
      [PyInt 5] (delete "seed"%string {[ "seed"%string := PyInt 3 ]}) 7.
Proof.
  apply (X10_seeded_twice_ignores_seed Random.sample_init_by_seed
           Random.sample_draw_plus [PyInt 5] {[ "seed"%string := PyInt 3 ]} 7 3);
    reflexivity.
Defined.


(** * Further properties of [_stat_selector_mixin.py] *)

Section StatisticFacts.
Import Numpy StatSelectorMixin.

Lemma Rsum_nonneg (xs : list R) :
  Forall (fun x => 0 <= x)%R xs -> (0 <= Rsum xs)%R.
Proof.
  induction 1 as [|x xs Hx _ IH]; unfold Rsum in *; simpl; lra.
Qed.

Lemma Rsum_squares_nonneg (m : R) (xs : list R) :
  (0 <= Rsum (List.map (fun x => (x - m) * (x - m)) xs))%R.
Proof.
  apply Rsum_nonneg. apply List.Forall_forall. intros y Hy.
  apply in_map_iff in Hy as (x & <- & _). cbv beta.
  generalize (x - m)%R. intros d. nra.
Qed.

Lemma INR_length_pos {A} (x : A) (xs : list A) : (0 < INR (length (x :: xs)))%R.
Proof. apply lt_0_INR. simpl. lia. Qed.

(** A variance is never negative. *)
Lemma var1_not_negative (xs : list R) : np_lt0 (var1 xs) = false.
Proof.
  destruct xs as [|x xs]; [reflexivity|].
  unfold var1. simpl np_lt0.
  match goal with |- (if Rlt_dec ?v 0 then _ else _) = _ => destruct (Rlt_dec v 0) as [H|_] end;
    [|reflexivity].
  exfalso. revert H.
  set (m := (Rsum (x :: xs) / INR (length (x :: xs)))%R).
  pose proof (Rsum_squares_nonneg m (x :: xs)) as Hs.
  pose proof (INR_length_pos x xs) as Hn.
  intros H. apply Rlt_not_le in H. apply H.
  apply Rmult_le_pos; [exact Hs|]. left. by apply Rinv_0_lt_compat.
Qed.

Lemma np_var_axis0_not_negative (X : matrix R) :
  existsb np_lt0 (np_var_axis0 X) = false.
Proof.
  unfold np_var_axis0. induction (seq 0 (n_cols X)) as [|j js IH]; [reflexivity|].
  simpl. by rewrite var1_not_negative, IH.
Qed.



Lemma normalize_length (self : self_) (vals out : list npfloat) :
  normalize self vals = Ret out -> length out = length vals.
Proof.
  intros H. rewrite (normalize_elementwise self vals out H). apply length_map.
Qed.

Lemma normalize_raises_iff (self : self_) (vals : list npfloat) :
  (exists e, normalize self vals = Raise e)
  <-> has_and (use_log self) = true /\ existsb np_lt0 vals = true.
Proof.
  unfold normalize. destruct (has_and (use_log self)).
  - destruct (existsb np_lt0 vals).
    + split; [auto | intros _; eexists; reflexivity].
    + split; [intros [e He]; discriminate | intros [_ H]; discriminate].
  - split; [intros [e He]; discriminate | intros [H _]; discriminate].
Qed.
End StatisticFacts.

(** X11. [_to_characteristics] refuses its input in two cases and no
    other: the statistic is neither ['mean'] nor ['var'], or [use_log] is on,
    the statistic is ['mean'] and some column has a negative mean.  With
    ['var'] it never raises, whatever the matrix and the switches. *)
Theorem X11_to_characteristics_raises_iff
    (self : StatSelectorMixin.self_) (X : Numpy.matrix R) :
  (exists e, StatSelectorMixin._to_characteristics self X = Raise e)
  <-> (StatSelectorMixin.stat self <> "mean"%string
       /\ StatSelectorMixin.stat self <> "var"%string)
      \/ (StatSelectorMixin.stat self = "mean"%string
          /\ StatSelectorMixin.has_and (StatSelectorMixin.use_log self) = true
          /\ exists j : nat,
               (j < Numpy.n_cols X)%nat
               /\ Numpy.np_lt0 (Numpy.mean1 (Numpy.column X j)) = true).
Proof.
  unfold StatSelectorMixin._to_characteristics.
  destruct (String.eqb_spec (StatSelectorMixin.stat self) "mean") as [Em|Em].
  - rewrite normalize_raises_iff. split.
    + intros [Hlog Hneg]. right. split; [exact Em|]. split; [exact Hlog|].
      apply existsb_exists in Hneg as (v & Hin & Hv).
      unfold Numpy.np_mean_axis0 in Hin.
      apply in_map_iff in Hin as (j & <- & Hj). apply in_seq in Hj.
      exists j. split; [lia | exact Hv].
    + intros [[H _] | (_ & Hlog & j & Hj & Hv)]; [contradiction|].
      split; [exact Hlog|]. apply existsb_exists.
      exists (Numpy.mean1 (Numpy.column X j)). split; [|exact Hv].
      unfold Numpy.np_mean_axis0. apply in_map_iff. exists j.
      split; [reflexivity | apply in_seq; lia].
  - destruct (String.eqb_spec (StatSelectorMixin.stat self) "var") as [Ev|Ev].
    + rewrite normalize_raises_iff, np_var_axis0_not_negative. split.
      * intros [_ H]. discriminate.
      * intros [[_ H] | (H & _)]; contradiction.
    + split; [intros _; left; auto | intros _; eexists; reflexivity].
Qed.

(** X12. When [_to_characteristics] returns, it returns one value per
    column of the matrix. *)
Theorem X12_to_characteristics_length
    (self : StatSelectorMixin.self_) (X : Numpy.matrix R) (vals : list Numpy.npfloat)
    (Hret : StatSelectorMixin._to_characteristics self X = Ret vals) :
  length vals = Numpy.n_cols X.
Proof.
  revert Hret. unfold StatSelectorMixin._to_characteristics.
  destruct (String.eqb (StatSelectorMixin.stat self) "mean").
  - intros H. rewrite (normalize_length _ _ _ H).
    unfold Numpy.np_mean_axis0. by rewrite length_map, length_seq.
  - destruct (String.eqb (StatSelectorMixin.stat self) "var"); [|discriminate].
    intros H. rewrite (normalize_length _ _ _ H).
    unfold Numpy.np_var_axis0. by rewrite length_map, length_seq.
Qed.

Lemma X12_to_characteristics_length_witness :
  length [Numpy.mean1 [1; 3]%R] = Numpy.n_cols (Numpy.Matrix 1 [[1%R]; [3%R]]).
Proof.
  apply (X12_to_characteristics_length
           (StatSelectorMixin.Self "mean" (Some false) (Some true))
           (Numpy.Matrix 1 [[1%R]; [3%R]]) [Numpy.mean1 [1; 3]%R]).
  reflexivity.
Defined.









(** * Further properties of [_specialized.py] *)

Section ComposeFacts.
Import Numpy Specialized.



End ComposeFacts.






(** * Properties of [_cli/auto_kmeans.py] *)

Section StackFacts.
Import Numpy NumpyArith AutoKMeansCli.

Lemma list_as_nth_seq {A} (d : A) (l : list A) :
  l = List.map (fun r => nth r l d) (seq 0 (length l)).
Proof.
  induction l as [|x l IH]; [reflexivity|].
  simpl. f_equal. rewrite <- seq_shift, List.map_map. exact IH.
Qed.

Lemma zip_with_map_same {A B C D} (h : B -> C -> D) (f : A -> B) (g : A -> C)
      (s : list A) :
  zip_with h (List.map f s) (List.map g s) = List.map (fun a => h (f a) (g a)) s.
Proof. induction s as [|a s IH]; [reflexivity|]. simpl. by rewrite IH. Qed.

Lemma hstack2_label_table (pre : list estimator) (e : estimator) (n : nat) :
  length (labels_ e) = n ->
  hstack2 (label_table pre n) (reshape_column (labels_ e))
  = Ret (label_table (pre ++ [e]) n).
Proof.
  intros Hlen. unfold hstack2, label_table, reshape_column. simpl.
  rewrite !length_map, length_seq, Hlen, Nat.eqb_refl.
  f_equal. rewrite length_app. simpl. f_equal.
  rewrite (list_as_nth_seq 0 (labels_ e)) at 1. rewrite Hlen.
  rewrite List.map_map, zip_with_map_same.
  apply List.map_ext. intros r. by rewrite List.map_app.
Qed.

Lemma fold_hstack_label_table (n : nat) (rest : list estimator) :
  forall pre : list estimator,
    Forall (fun e => length (labels_ e) = n) rest ->
    fold_left (fun acc B => match acc with
                            | Ret M => hstack2 M B
                            | Raise e => Raise e
                            end)
              (List.map (fun e => reshape_column (labels_ e)) rest)
              (Ret (label_table pre n))
    = Ret (label_table (pre ++ rest) n).
Proof.
  induction rest as [|e rest IH]; intros pre Hall.
  - simpl. by rewrite app_nil_r.
  - inversion Hall as [|? ? He Hrest]; subst. simpl.
    rewrite (hstack2_label_table pre e _ eq_refl).
    rewrite IH by exact Hrest. by rewrite <- app_assoc.
Qed.

Lemma fold_hstack_raise {T} (e : exn) (l : list (matrix T)) :
  fold_left (fun acc B => match acc with
                          | Ret M => hstack2 M B
                          | Raise e => Raise e
                          end) l (Raise e) = Raise e.
Proof. induction l as [|B l IH]; [reflexivity | exact IH]. Qed.

Lemma fold_hstack_rows {T} (l : list (matrix T)) :
  forall A M : matrix T,
    fold_left (fun acc B => match acc with
                            | Ret M => hstack2 M B
                            | Raise e => Raise e
                            end) l (Ret A) = Ret M ->
    Forall (fun B => length (rows B) = length (rows A)) l.
Proof.
  induction l as [|B l IH]; intros A M; [constructor|].
  simpl. unfold hstack2 at 2.
  destruct (Nat.eqb_spec (length (rows A)) (length (rows B))) as [E|E].
  - intros H. constructor; [by symmetry|].
    specialize (IH _ _ H). simpl in IH.
    rewrite length_zip_with in IH.
    eapply Forall_impl; [exact IH|]. intros C HC. simpl in HC. lia.
  - by rewrite fold_hstack_raise.
Qed.
Lemma make_segmentations_matrix_label_table
      (kmeans : auto_kmeans) (e0 : estimator) (rest : list estimator) :
  estimators_ kmeans = e0 :: rest ->
  Forall (fun e => length (labels_ e) = length (labels_ e0)) rest ->
  make_segmentations_matrix kmeans
  = Ret (label_table (e0 :: rest) (length (labels_ e0))).
Proof.
  intros Hest Hrest. unfold make_segmentations_matrix. rewrite Hest.
  cbn [List.map np_hstack].
  replace (reshape_column (labels_ e0))
    with (label_table [e0] (length (labels_ e0))).
  - by rewrite (fold_hstack_label_table _ rest [e0] Hrest).
  - unfold label_table, reshape_column. simpl. f_equal.
    transitivity (List.map (fun x => [x])
                    (List.map (fun r => nth r (labels_ e0) 0) (seq 0 (length (labels_ e0))))).
    + by rewrite List.map_map.
    + by rewrite <- list_as_nth_seq.
Qed.
Lemma make_segmentations_matrix_inv (kmeans : auto_kmeans) (partitions : matrix Z) :
  make_segmentations_matrix kmeans = Ret partitions ->
  exists e0 rest,
    estimators_ kmeans = e0 :: rest
    /\ Forall (fun e => length (labels_ e) = length (labels_ e0)) rest
    /\ partitions = label_table (e0 :: rest) (length (labels_ e0)).
Proof.
  intros Hret. pose proof Hret as Hret'. revert Hret'.
  unfold make_segmentations_matrix.
  destruct (estimators_ kmeans) as [|e0 rest] eqn:Hest; [discriminate|].
  intros Hfold. exists e0, rest. split; [reflexivity|].
  assert (Hall : Forall (fun e => length (labels_ e) = length (labels_ e0)) rest).
  { cbn [List.map np_hstack] in Hfold.
    apply fold_hstack_rows in Hfold.
    apply List.Forall_forall. intros e He.
    rewrite List.Forall_forall in Hfold.
    specialize (Hfold (reshape_column (labels_ e))).
    unfold reshape_column in Hfold. cbn [rows] in Hfold.
    rewrite !length_map in Hfold. apply Hfold.
    apply in_map_iff. by exists e. }
  split; [exact Hall|].
  rewrite (make_segmentations_matrix_label_table kmeans e0 rest Hest Hall) in Hret.
  by injection Hret as <-.
Qed.
End StackFacts.

(** X19. For a fitted [AutoKMeans] with at least one estimator, all of
    whose label vectors have the same length [n], the segmentations matrix
    has [n] rows and one column per estimator, and its entry in row [r] and
    column [i] is label [r] of estimator [i]. *)
Theorem X19_segmentations_matrix_columns (kmeans : AutoKMeansCli.auto_kmeans) (n : nat)
    (Hsome : AutoKMeansCli.estimators_ kmeans <> [])
    (Hlen : Forall (fun e => length (AutoKMeansCli.labels_ e) = n)
                   (AutoKMeansCli.estimators_ kmeans)) :
  exists partitions : Numpy.matrix Z,
    AutoKMeansCli.make_segmentations_matrix kmeans = Ret partitions
    /\ Numpy.n_cols partitions = length (AutoKMeansCli.estimators_ kmeans)
    /\ length (Numpy.rows partitions) = n
    /\ Numpy.well_shaped partitions
    /\ forall (r i : nat) (e : AutoKMeansCli.estimator),
         (r < n)%nat ->
         nth_error (AutoKMeansCli.estimators_ kmeans) i = Some e ->
         nth i (nth r (Numpy.rows partitions) []) 0
         = nth r (AutoKMeansCli.labels_ e) 0.
Proof.
  destruct (AutoKMeansCli.estimators_ kmeans) as [|e0 rest] eqn:Hest; [congruence|].
  inversion Hlen as [|? ? H0 Hrest]; subst.
  exists (AutoKMeansCli.label_table (e0 :: rest) (length (AutoKMeansCli.labels_ e0))).
  split.
  - by apply make_segmentations_matrix_label_table.
  - unfold AutoKMeansCli.label_table. cbn [Numpy.n_cols Numpy.rows].
    split; [reflexivity|]. split; [by rewrite length_map, length_seq|]. split.
    + unfold Numpy.well_shaped. cbn [Numpy.n_cols Numpy.rows].
      apply List.Forall_forall. intros row Hrow.
      apply in_map_iff in Hrow as (r & <- & _). apply length_map.
    + intros r i e Hr Hi.
      rewrite (nth_indep _ [] (List.map (fun e => nth 0 (AutoKMeansCli.labels_ e) 0)
                                        (e0 :: rest)))
        by (rewrite length_map, length_seq; exact Hr).
      rewrite (List.map_nth (fun r => List.map (fun e => nth r (AutoKMeansCli.labels_ e) 0)
                                               (e0 :: rest))).
      rewrite seq_nth by exact Hr. cbn [Nat.add].
      apply nth_error_split in Hi as (l1 & l2 & Hl & <-).
      rewrite Hl, List.map_app. cbn [List.map].
      rewrite app_nth2 by (rewrite length_map; lia).
      rewrite length_map, Nat.sub_diag. reflexivity.
Qed.

Lemma X19_segmentations_matrix_columns_witness :
  exists partitions : Numpy.matrix Z,
    AutoKMeansCli.make_segmentations_matrix
      (AutoKMeansCli.AutoKMeans
         [AutoKMeansCli.Estimator [0; 1; 1] (Numpy.Matrix 0 []);
          AutoKMeansCli.Estimator [2; 0; 1] (Numpy.Matrix 0 [])] 2)
    = Ret partitions
    /\ Numpy.n_cols partitions = 2%nat
    /\ length (Numpy.rows partitions) = 3%nat.
Proof.
  destruct (X19_segmentations_matrix_columns
              (AutoKMeansCli.AutoKMeans
                 [AutoKMeansCli.Estimator [0; 1; 1] (Numpy.Matrix 0 []);
                  AutoKMeansCli.Estimator [2; 0; 1] (Numpy.Matrix 0 [])] 2) 3)
    as (partitions & Hret & Hcols & Hrows & _).
  - discriminate.
  - repeat constructor.
  - exists partitions. split; [exact Hret | split; [exact Hcols | exact Hrows]].
Defined.

(** X20. [make_segmentations_matrix] returns exactly when there is at
    least one estimator and all label vectors are as long as the first; with
    no estimator, or with label vectors of different lengths, it raises a
    [ValueError]. *)
Theorem X20_segmentations_matrix_returns_iff (kmeans : AutoKMeansCli.auto_kmeans) :
  (exists partitions, AutoKMeansCli.make_segmentations_matrix kmeans = Ret partitions)
  <-> exists e0 rest,
        AutoKMeansCli.estimators_ kmeans = e0 :: rest
        /\ Forall (fun e => length (AutoKMeansCli.labels_ e)
                            = length (AutoKMeansCli.labels_ e0)) rest.
Proof.
  split.
  - intros [partitions Hret].
    destruct (make_segmentations_matrix_inv kmeans partitions Hret)
      as (e0 & rest & Hest & Hall & _).
    by exists e0, rest.
  - intros (e0 & rest & Hest & Hall).
    eexists. by apply (make_segmentations_matrix_label_table kmeans e0 rest).
Qed.

(** X21. The tables written by the loop of [save] over the segmentations
    matrix are one per estimator, and the table of estimator [i] (counted
    from 0) carries the number [min_clusters + i] and holds exactly the
    labels of that estimator, as one column. *)
Theorem X21_partition_tables_hold_labels
    (kmeans : AutoKMeansCli.auto_kmeans) (partitions : Numpy.matrix Z)
    (Hret : AutoKMeansCli.make_segmentations_matrix kmeans = Ret partitions) :
  length (AutoKMeansCli.partition_tables kmeans partitions)
  = length (AutoKMeansCli.estimators_ kmeans)
  /\ forall (i : nat) (e : AutoKMeansCli.estimator),
       nth_error (AutoKMeansCli.estimators_ kmeans) i = Some e ->
       nth_error (AutoKMeansCli.partition_tables kmeans partitions) i
       = Some ((Z.of_nat i + AutoKMeansCli.min_clusters kmeans)%Z,
               NumpyArith.reshape_column (AutoKMeansCli.labels_ e)).
Proof.
  destruct (make_segmentations_matrix_inv kmeans partitions Hret)
    as (e0 & rest & Hest & Hall & ->).
  rewrite Hest. unfold AutoKMeansCli.partition_tables, AutoKMeansCli.label_table.
  cbn [Numpy.n_cols Numpy.rows].
  split; [by rewrite length_map, length_seq|].
  intros i e Hi.
  assert (Hlt : (i < length (e0 :: rest))%nat).
  { apply nth_error_Some. congruence. }
  rewrite nth_error_map, nth_error_seq.
  destruct (Nat.ltb_spec i (length (e0 :: rest))) as [_|Hge]; [|lia].
  cbn [option_map Nat.add]. f_equal. f_equal. f_equal.
  assert (Hlen : length (AutoKMeansCli.labels_ e) = length (AutoKMeansCli.labels_ e0)).
  { assert (Hall' : Forall (fun e => length (AutoKMeansCli.labels_ e)
                                     = length (AutoKMeansCli.labels_ e0)) (e0 :: rest))
      by (constructor; [reflexivity | exact Hall]).
    rewrite List.Forall_forall in Hall'. apply Hall'.
    by apply nth_error_In with i. }
  rewrite List.map_map.
  rewrite <- Hlen.
  transitivity (List.map (fun r => nth r (AutoKMeansCli.labels_ e) 0)
                         (seq 0 (length (AutoKMeansCli.labels_ e))));
    [|by rewrite <- list_as_nth_seq].
  apply List.map_ext. intros r.
  apply nth_error_split in Hi as (l1 & l2 & Hl & <-).
  rewrite Hl, List.map_app. cbn [List.map].
  rewrite app_nth2 by (rewrite length_map; lia).
  rewrite length_map, Nat.sub_diag. reflexivity.
Qed.

Lemma X21_partition_tables_hold_labels_witness :
  nth_error
    (AutoKMeansCli.partition_tables
       (AutoKMeansCli.AutoKMeans
          [AutoKMeansCli.Estimator [0; 1; 1] (Numpy.Matrix 0 []);
           AutoKMeansCli.Estimator [2; 0; 1] (Numpy.Matrix 0 [])] 2)
       (Numpy.Matrix 2 [[0; 2]; [1; 0]; [1; 1]])) 1
  = Some (3, Numpy.Matrix 1 [[2]; [0]; [1]]).
Proof.
  exact (proj2 (X21_partition_tables_hold_labels
                  (AutoKMeansCli.AutoKMeans
                     [AutoKMeansCli.Estimator [0; 1; 1] (Numpy.Matrix 0 []);
                      AutoKMeansCli.Estimator [2; 0; 1] (Numpy.Matrix 0 [])] 2)
                  (Numpy.Matrix 2 [[0; 2]; [1; 0]; [1; 1]]) eq_refl)
               1%nat (AutoKMeansCli.Estimator [2; 0; 1] (Numpy.Matrix 0 [])) eq_refl).
Defined.


(** * Properties of [normalize_rows] *)

Section NormalizeFacts.
Import Numpy NumpyArith Utils.











End NormalizeFacts.








Section AffineFacts.
Import Numpy NumpyArith Utils.



End AffineFacts.



(** X26. [normalize_rows] keeps the shape of the matrix: as many rows, the
    same column count, every row as long as it was. *)
Theorem X26_normalize_rows_shape (data : Numpy.matrix R) :
  Numpy.n_cols (Utils.normalize_rows data) = Numpy.n_cols data
  /\ length (Numpy.rows (Utils.normalize_rows data)) = length (Numpy.rows data)
  /\ (forall i : nat,
        length (nth i (Numpy.rows (Utils.normalize_rows data)) [])
        = length (nth i (Numpy.rows data) []))
  /\ (Numpy.well_shaped data -> Numpy.well_shaped (Utils.normalize_rows data)).
Proof.
  assert (Hrow : forall row, length (Utils.normalize_row row) = length row).
  { intros row. unfold Utils.normalize_row. by rewrite !length_map. }
  unfold Utils.normalize_rows. cbn [Numpy.n_cols Numpy.rows].
  split; [reflexivity|]. split; [apply length_map|]. split.
  - intros i.
    change (@nil Numpy.npfloat) with (Utils.normalize_row []).
    by rewrite List.map_nth, Hrow.
  - unfold Numpy.well_shaped. cbn [Numpy.n_cols Numpy.rows].
    rewrite !List.Forall_forall. intros Hw r Hr.
    apply in_map_iff in Hr as (row & <- & Hin). rewrite Hrow. by apply Hw.
Qed.

Lemma X26_normalize_rows_shape_witness :
  Numpy.well_shaped (Utils.normalize_rows (Numpy.Matrix 2 [[3; 4]; [1; 1]]%R)).
Proof.
  apply (X26_normalize_rows_shape (Numpy.Matrix 2 [[3; 4]; [1; 1]]%R)).
  repeat constructor.
Defined.

Lemma X11_to_characteristics_raises_iff_witness :
  exists e : exn,
    StatSelectorMixin._to_characteristics
      (StatSelectorMixin.Self "median" (Some false) (Some true))
      (Numpy.Matrix 1 [[1%R]; [3%R]])
    = Raise e.
Proof.
  apply (X11_to_characteristics_raises_iff
           (StatSelectorMixin.Self "median" (Some false) (Some true))
           (Numpy.Matrix 1 [[1%R]; [3%R]])).
  left. split; discriminate.
Defined.

Lemma X20_segmentations_matrix_returns_iff_witness :
  exists partitions : Numpy.matrix Z,
    AutoKMeansCli.make_segmentations_matrix
      (AutoKMeansCli.AutoKMeans
         [AutoKMeansCli.Estimator [0; 1; 1] (Numpy.Matrix 0 []);
          AutoKMeansCli.Estimator [2; 0; 1] (Numpy.Matrix 0 [])] 2)
    = Ret partitions.
Proof.
  apply (X20_segmentations_matrix_returns_iff
           (AutoKMeansCli.AutoKMeans
              [AutoKMeansCli.Estimator [0; 1; 1] (Numpy.Matrix 0 []);
               AutoKMeansCli.Estimator [2; 0; 1] (Numpy.Matrix 0 [])] 2)).
  eexists. eexists. split; [reflexivity|]. repeat constructor.
Defined.
